(** * Claims Processing UI: a shallow embedding of [challenge-5/app.py]

    The Streamlit front end is a thin view over a remote API.  This file
    embeds its pure helpers ([severity_pill], the cost and count cells, the
    mime guess), its two HTTP operations ([check_health], [process_claim]),
    the URL resolution ([get_api_url]), the results renderer
    ([display_results]) and the page ([main]: sidebar, upload card,
    preview, submission and results) and proves what the specification
    says about them, and what the code shows besides.

    Conventions.
    - A Python [str] is a [string]; a character stands for a code point
      below 256 (Latin-1), on which [str.lower] and [str.strip] are written
      out in full.
    - A JSON value as [json.loads] returns it is a [pyval]; a [dict] is an
      association list in insertion order, looked up by first match.
    - A Python [float] is a [spec_float] (binary64), so that the format
      specifier [,.2f] is computed exactly on the dyadic value.
    - Code that may raise returns a [result]; code that paints runs in
      [ui], which threads the list of Streamlit elements painted so far and
      either returns or raises.
    - The remote service is a [backend]: for each request, the exception
      the transport raises or the response that arrives.
    - Where a library decides, the renderer takes an interface: [repr] of
      a [float] ([FloatRepr]), the text of the [TypeError] that [st.metric]
      raises on a list or an object ([MetricError]), and whether
      [st.image] decodes the bytes it is handed ([ImageDecoder]).

    The definitions come first, then the theorems, then closed examples on
    sample inputs. *)

From Stdlib Require Import ZArith NArith List String Ascii Bool Lia.
From Stdlib Require Import Decimal DecimalString DecimalN SpecFloat.
Import ListNotations.

Local Open Scope string_scope.
Local Open Scope Z_scope.

(** ** Python strings *)

Module PyStr.

(** The double quote and the line feed, which the literals below need. *)
Definition dq : string := String (ascii_of_nat 34) EmptyString.
Definition nl : string := String (ascii_of_nat 10) EmptyString.

Definition code (c : ascii) : N := N_of_ascii c.

Definition between (lo hi : N) (c : ascii) : bool :=
  ((lo <=? code c) && (code c <=? hi))%N.

(** [str.isspace] on one code point below 256: TAB..CR, FS..US, SPACE,
    NEL (0x85) and NBSP (0xA0). *)
Definition is_space (c : ascii) : bool :=
  between 9 13 c || between 28 32 c || (code c =? 133)%N || (code c =? 160)%N.

(** [str.lower] on one code point below 256: A..Z and the Latin-1 capitals
    0xC0..0xDE except the multiplication sign 0xD7. *)
Definition is_upper (c : ascii) : bool :=
  between 65 90 c || between 192 214 c || between 216 222 c.

Definition lower_char (c : ascii) : ascii :=
  if is_upper c then ascii_of_N (code c + 32) else c.

Fixpoint lower (s : string) : string :=
  match s with
  | EmptyString => EmptyString
  | String c r => String (lower_char c) (lower r)
  end.

(** [str.lstrip] / [str.rstrip] with the set of characters to drop given
    as a predicate. *)
Fixpoint lstrip_by (p : ascii -> bool) (s : string) : string :=
  match s with
  | EmptyString => EmptyString
  | String c r => if p c then lstrip_by p r else s
  end.

Fixpoint rstrip_by (p : ascii -> bool) (s : string) : string :=
  match s with
  | EmptyString => EmptyString
  | String c r =>
      match rstrip_by p r with
      | EmptyString => if p c then EmptyString else String c EmptyString
      | r' => String c r'
      end
  end.

(** [s.strip()] *)
Definition strip (s : string) : string := rstrip_by is_space (lstrip_by is_space s).

Fixpoint mem_char (c : ascii) (cs : string) : bool :=
  match cs with
  | EmptyString => false
  | String d r => Ascii.eqb c d || mem_char c r
  end.

(** [s.rstrip(chars)] *)
Definition rstrip_chars (chars s : string) : string :=
  rstrip_by (fun c => mem_char c chars) s.

(** [s.endswith(suffix)] *)
Fixpoint endswith (s suffix : string) : bool :=
  String.eqb s suffix ||
  match s with
  | EmptyString => false
  | String _ r => endswith r suffix
  end.

(** [x in [w1, ..., wn]] for strings *)
Definition in_list (s : string) (ws : list string) : bool :=
  existsb (String.eqb s) ws.

End PyStr.
Import PyStr.

(** ** Result formatter: severity *)

(** [severity or ""] and [severity or "N/A"].  The annotation of
    [severity_pill] says [str]; its body also takes [None], hence the
    option. *)
Definition or_empty (severity : option string) : string :=
  match severity with
  | Some s => s
  | None => EmptyString
  end.

Definition or_na (severity : option string) : string :=
  match severity with
  | Some (String c r) => String c r
  | _ => "N/A"
  end.

(** [severity_pill(severity)] *)
Definition severity_pill (severity : option string) : string :=
  let s := lower (strip (or_empty severity)) in
  if in_list s ["severe"; "critical"; "high"; "significant"] then
    "<span class=" ++ dq ++ "pill pill-bad" ++ dq ++ ">High</span>"
  else if in_list s ["moderate"; "medium"] then
    "<span class=" ++ dq ++ "pill pill-warn" ++ dq ++ ">Medium</span>"
  else if in_list s ["minor"; "low"] then
    "<span class=" ++ dq ++ "pill pill-ok" ++ dq ++ ">Low</span>"
  else
    "<span class=" ++ dq ++ "pill pill-neutral" ++ dq ++ ">" ++ or_na severity ++ "</span>".

(** The four tiers of the glossary and the pill each one is painted as. *)
Inductive tier := High | Medium | Low | Neutral.

Definition tier_class (t : tier) : string :=
  match t with
  | High => "pill-bad"
  | Medium => "pill-warn"
  | Low => "pill-ok"
  | Neutral => "pill-neutral"
  end.

Definition pill_html (t : tier) (label : string) : string :=
  "<span class=" ++ dq ++ "pill " ++ tier_class t ++ dq ++ ">" ++ label ++ "</span>".

(** ** Python values, exceptions, and code that may raise *)

(** What [json.loads] returns.  [bool] is kept apart from [int] although
    Python makes it a subclass: [isinstance(True, int)] holds and is
    written out where the code asks. *)
#[warnings="-register-all"]
Inductive pyval : Type :=
| VNone
| VBool (b : bool)
| VInt (z : Z)
| VFloat (f : spec_float)
| VStr (s : string)
| VList (l : list pyval)
| VDict (d : list (string * pyval)).

(** [bool(v)], the test behind [not v], [v or w] and [if v]. *)
Definition truthy (v : pyval) : bool :=
  match v with
  | VNone => false
  | VBool b => b
  | VInt z => negb (z =? 0)
  | VFloat (S754_zero _) => false
  | VFloat _ => true
  | VStr s => negb (String.eqb s EmptyString)
  | VList l => negb (Nat.eqb (List.length l) 0)
  | VDict d => negb (Nat.eqb (List.length d) 0)
  end.

(** [v or w] *)
Definition py_or (v w : pyval) : pyval := if truthy v then v else w.

Definition type_name (v : pyval) : string :=
  match v with
  | VNone => "NoneType"
  | VBool _ => "bool"
  | VInt _ => "int"
  | VFloat _ => "float"
  | VStr _ => "str"
  | VList _ => "list"
  | VDict _ => "dict"
  end.

(** Exceptions: the class and [str(e)].  Every class below derives from
    [Exception], so [except Exception] catches all of them. *)
Inductive exn_class :=
| AttributeError
| OverflowError
| HTTPStatusError
| TransportError
| JSONDecodeError
| TypeError
| UnidentifiedImageError.

Record exn := Exn { exn_kind : exn_class; exn_text : string }.

Declare Scope result_scope.
Delimit Scope result_scope with result.
Declare Scope ui_scope.
Delimit Scope ui_scope with ui.

Definition result (A : Type) : Type := (exn + A)%type.
Bind Scope result_scope with result.

(** What Streamlit is asked to paint, in program order: each call with its
    arguments as the code passes them ([st.metric] and [st.write] take the
    value itself, not a text), and [StatusState] for the one update that
    Streamlit makes by itself, when a status block is left.  A call that
    Streamlit refuses paints nothing: it raises (see [st_metric]). *)
Inductive element :=
| Markdown (body : string) (unsafe_allow_html : bool)
| Metric (label : string) (value : pyval)
| Write (value : pyval)
| Columns (n : nat)
| Enter (container : string)
| Leave (container : string)
| Divider
| StatusUpdate (label state : string)
| StatusState (state : string)
| StatusWrite (body : string)
| ErrorBox (body : pyval)
| Json (body : pyval).

(** A rendering step: the elements painted so far go in, the elements
    painted and either an exception or a value come out. *)
Definition ui (A : Type) : Type := list element -> list element * result A.

Bind Scope ui_scope with ui.

(** Sequencing: an exception ends the computation. *)
Definition ok {A : Type} (x : A) : result A := inr x.

Definition raise {A : Type} (e : exn) : result A := inl e.

Definition and_then {A B : Type} (m : result A) (k : A -> result B) : result B :=
  match m with
  | inl e => inl e
  | inr x => k x
  end.

Definition ret {A : Type} (x : A) : ui A := fun t => (t, inr x).

Definition ui_then {A B : Type} (m : ui A) (k : A -> ui B) : ui B :=
  fun t =>
    match m t with
    | (t', inl e) => (t', inl e)
    | (t', inr x) => k x t'
    end.

Reserved Notation "x <- m ;; k" (at level 61, m at next level, right associativity).
Reserved Notation "m ;; k" (at level 61, right associativity).

Notation "x <- m ;; k" := (and_then m (fun x => k)) : result_scope.
Notation "m ;; k" := (and_then m (fun _ => k)) : result_scope.
Notation "x <- m ;; k" := (ui_then m (fun x => k)) : ui_scope.
Notation "m ;; k" := (ui_then m (fun _ => k)) : ui_scope.
Local Open Scope ui_scope.

(** [try: body  except Exception as e: handler(e)] *)
Definition try_except {A : Type} (body : result A) (handler : exn -> result A) : result A :=
  match body with
  | inl e => handler e
  | inr x => inr x
  end.

Definition lift {A : Type} (r : result A) : ui A := fun t => (t, r).

Definition paint (e : element) : ui unit := fun t => (List.app t [e], inr tt).

(** A step applied to a page is run at once when a proof simplifies. *)
Arguments ok {A} x /.
Arguments raise {A} e /.
Arguments and_then {A B} m k /.
Arguments ui_then {A B} m k _ /.
Arguments ret {A} x _ /.
Arguments lift {A} r _ /.
Arguments paint e _ /.

(** [with container: body] *)
Definition within {A : Type} (container : string) (body : ui A) : ui A :=
  paint (Enter container) ;; x <- body ;; paint (Leave container) ;; ret x.

Definition st_markdown (body : string) (unsafe_allow_html : bool) : ui unit :=
  paint (Markdown body unsafe_allow_html).

(** [st.metric(label, value)] takes an [int] (a [bool] is one), a
    [float], a [str] or [None], and raises [TypeError] on anything else,
    which for a value read from JSON is a list or an object.  The text of
    that exception is Streamlit's and is taken as an interface. *)
Class MetricError := metric_error : pyval -> string.

Definition accepted_by_metric (value : pyval) : bool :=
  match value with
  | VList _ | VDict _ => false
  | _ => true
  end.

Definition st_metric {metric_text : MetricError} (label : string) (value : pyval) : ui unit :=
  if accepted_by_metric value then paint (Metric label value)
  else lift (raise (Exn TypeError (metric_error value))).

(** The state a status block is in after the updates painted in it; it
    starts as [current]. *)
Fixpoint status_state (current : string) (painted : list element) : string :=
  match painted with
  | [] => current
  | StatusUpdate _ state :: r => status_state state r
  | StatusState state :: r => status_state state r
  | _ :: r => status_state current r
  end.

(** [with st.status(...) as status: body].  The block starts in state
    running; on the way out Streamlit updates a status that is still
    running, to complete, or to error when the body raised, and leaves
    the label as it is. *)
Definition with_status {A : Type} (body : ui A) : ui A :=
  fun t =>
    let (painted, r) := body [] in
    let on_exit :=
      if String.eqb (status_state "running" painted) "running"
      then [StatusState match r with inl _ => "error" | inr _ => "complete" end]
      else [] in
    match r with
    | inl e => (List.app t (Enter "status" :: List.app painted on_exit), inl e)
    | inr x =>
        (List.app t (Enter "status" :: List.app painted (List.app on_exit [Leave "status"])),
         inr x)
    end.
Definition st_write (value : pyval) : ui unit := paint (Write value).
Definition st_columns (n : nat) : ui unit := paint (Columns n).
Definition st_divider : ui unit := paint Divider.
Definition st_error (body : pyval) : ui unit := paint (ErrorBox body).
Definition st_json (body : pyval) : ui unit := paint (Json body).

(** A run from the empty page. *)
Definition run {A : Type} (m : ui A) : list element * result A := m [].

(** ** Dictionaries *)

Fixpoint lookup (k : string) (d : list (string * pyval)) : option pyval :=
  match d with
  | [] => None
  | (k', v) :: r => if String.eqb k k' then Some v else lookup k r
  end.

(** [d.get(k, default)] on a dict. *)
Definition get_or (d : list (string * pyval)) (k : string) (default : pyval) : pyval :=
  match lookup k d with
  | Some v => v
  | None => default
  end.

(** [o.get(k, default)]: only a dict has the method. *)
Definition dict_get (o : pyval) (k : string) (default : pyval) : result pyval :=
  match o with
  | VDict d => ok (get_or d k default)
  | _ => raise (Exn AttributeError
                  ("'" ++ type_name o ++ "' object has no attribute 'get'"))
  end.

(** ** Numbers as text *)

(** Decimal digits of a natural number. *)
Definition dec (n : Z) : string := NilZero.string_of_uint (N.to_uint (Z.to_N n)).

(** [str(z)] for an [int]. *)
Definition str_int (z : Z) : string :=
  if z <? 0 then "-" ++ dec (- z) else dec z.

(** The nearest integer to [n * 2^e], ties to the even one: how a binary
    value is rounded to a fixed number of decimals. *)
Definition round_half_even (n e : Z) : Z :=
  if 0 <=? e then n * 2 ^ e
  else
    let d := 2 ^ (- e) in
    let q := n / d in
    match 2 * (n mod d) ?= d with
    | Lt => q
    | Gt => q + 1
    | Eq => if Z.even q then q else q + 1
    end.

(** The [,] of the format specifier: a comma before every group of three
    digits, counted from the right.  The digits come least significant
    first. *)
Fixpoint commas_from_right (l : list ascii) : list ascii :=
  match l with
  | a :: b :: c :: ((_ :: _) as r) => a :: b :: c :: ","%char :: commas_from_right r
  | _ => l
  end.

Definition group_thousands (digits : string) : string :=
  string_of_list_ascii
    (List.rev (commas_from_right (List.rev (list_ascii_of_string digits)))).

Definition two_digits (n : Z) : string :=
  if n <? 10 then "0" ++ dec n else dec n.

(** The text of [cents / 100] with grouping and two decimals. *)
Definition fixed2 (negative : bool) (cents : Z) : string :=
  (if negative then "-" else "") ++
  group_thousands (dec (cents / 100)) ++ "." ++ two_digits (cents mod 100).

(** [format(f, ",.2f")] for a [float]. *)
Definition format_float (f : spec_float) : string :=
  match f with
  | S754_nan => "nan"
  | S754_infinity s => if s then "-inf" else "inf"
  | S754_zero s => fixed2 s 0
  | S754_finite s m e => fixed2 s (round_half_even (100 * Z.pos m) e)
  end.

(** [float(z)] for an [int]: round to nearest even on 53 bits;
    [OverflowError] beyond the range of binary64. *)
Definition float_of_int (z : Z) : result spec_float :=
  match binary_normalize 53 1024 z 0 false with
  | S754_infinity _ | S754_nan =>
      raise (Exn OverflowError "int too large to convert to float")
  | f => ok f
  end.

(** [format(z, ",.2f")] for an [int]: through [float]. *)
Definition format_int (z : Z) : result string :=
  (f <- float_of_int z ;; ok (format_float f))%result.

(** ** The money format, read from the text

    What the specification asks of a formatted amount, stated on the text
    alone: a currency sign, an optional minus, one to three digits, then
    groups of a comma and three digits, a point and two digits; and the
    amount in cents that such a text denotes. *)

Definition is_digit (c : ascii) : bool := between 48 57 c.

(** Zero or more groups [,ddd]. *)
Fixpoint comma_groups (l : list ascii) : bool :=
  match l with
  | [] => true
  | sep :: a :: b :: c :: r =>
      Ascii.eqb sep "," && is_digit a && is_digit b && is_digit c && comma_groups r
  | _ => false
  end.

(** One to three digits, then groups [,ddd]. *)
Definition grouped_digits (l : list ascii) : bool :=
  match l with
  | a :: r =>
      is_digit a &&
      (comma_groups r ||
       match r with
       | b :: r2 =>
           is_digit b &&
           (comma_groups r2 ||
            match r2 with
            | c :: r3 => is_digit c && comma_groups r3
            | [] => false
            end)
       | [] => false
       end)
  | [] => false
  end.

(** Grouped digits, a point, two digits. *)
Definition amount_shape (l : list ascii) : bool :=
  match List.rev l with
  | d2 :: d1 :: point :: units =>
      Ascii.eqb point "." && is_digit d1 && is_digit d2 && grouped_digits (List.rev units)
  | _ => false
  end.

Definition money_shape (s : string) : bool :=
  match list_ascii_of_string s with
  | currency :: c :: r =>
      Ascii.eqb currency "$" &&
      (if Ascii.eqb c "-" then amount_shape r else amount_shape (c :: r))
  | _ => false
  end.

Definition digit_value (c : ascii) : Z := Z.of_N (code c) - 48.

(** The number a run of digits denotes, read from the left onto [acc]. *)
Definition read_from (acc : Z) (l : list ascii) : Z :=
  fold_left (fun acc c => 10 * acc + digit_value c) l acc.

Definition read_digits (l : list ascii) : Z := read_from 0 l.

(** The sign and the amount in cents of a money text: with exactly two
    decimals, the digits read without their separators are the cents. *)
Definition money_cents (s : string) : option (bool * Z) :=
  match list_ascii_of_string s with
  | _ :: c :: r =>
      if Ascii.eqb c "-" then Some (true, read_digits (filter is_digit r))
      else Some (false, read_digits (filter is_digit (c :: r)))
  | _ => None
  end.

(** The sign and the amount in cents of a finite [float], rounded to the
    nearest cent, ties to even. *)
Definition is_finite (f : spec_float) : bool :=
  match f with
  | S754_zero _ | S754_finite _ _ _ => true
  | _ => false
  end.

Definition float_cents (f : spec_float) : bool * Z :=
  match f with
  | S754_finite s m e => (s, round_half_even (100 * Z.pos m) e)
  | S754_zero s => (s, 0)
  | S754_infinity s => (s, 0)
  | S754_nan => (false, 0)
  end.

(** ** Configuration: the API base URL *)

Definition BUILT_IN_API_URL : string :=
  "https://claims-processing-api.orangeforest-dfe25231.swedencentral.azurecontainerapps.io".

(** [os.environ.get("API_URL", <built-in>).rstrip("/")]; the argument is the
    environment's value of [API_URL], if set. *)
Definition DEFAULT_API_URL (env_API_URL : option string) : string :=
  rstrip_chars "/"
    match env_API_URL with
    | Some u => u
    | None => BUILT_IN_API_URL
    end.

(** [st.session_state], of which the code uses the key [api_url] only. *)
Record session_state := { api_url : option string }.

(** [get_api_url()]: the value returned and the session state left. *)
Definition get_api_url (env_API_URL : option string) (st : session_state)
  : string * session_state :=
  match api_url st with
  | None =>
      let d := DEFAULT_API_URL env_API_URL in
      (rstrip_chars "/" d, {| api_url := Some d |})
  | Some u => (rstrip_chars "/" u, st)
  end.

(** The sidebar of [main]:
    [api_url = st.text_input("API URL", value=get_api_url()).strip().rstrip("/")]
    and [st.session_state.api_url = api_url].  The widget returns the text
    the user typed, or [value] when nothing was typed. *)
Definition sidebar_api_url (env_API_URL : option string) (typed : option string)
    (st : session_state) : string * session_state :=
  let (value, _) := get_api_url env_API_URL st in
  let text := match typed with Some t => t | None => value end in
  let url := rstrip_chars "/" (strip text) in
  (url, {| api_url := Some url |}).

(** A string has a trailing slash when it is some text followed by [/]. *)
Definition trailing_slash (s : string) : Prop := exists stem, s = stem ++ "/".

(** ** API client *)

(** An HTTP response as far as the client looks at it: the status code,
    the text of the [HTTPStatusError] that [r.raise_for_status()] raises
    for it when the status is not 2xx (httpx composes it from the status
    line and the URL), and what [r.json()] does, which is to return the
    parsed body or to raise. *)
Record response := {
  status_code : Z;
  status_error : string;
  json : result pyval
}.

(** One round trip: the transport raises, or a response arrives. *)
Inductive exchange :=
| Fails (e : exn)
| Responds (r : response).

(** The multipart field [files = {"file": (filename, file_content, mime)}]. *)
Record multipart := {
  field : string;
  file_name : string;
  file_content : string;
  content_type : string
}.

(** The remote service, seen from the client. *)
Record backend := {
  http_get : string -> exchange;
  http_post : string -> multipart -> exchange
}.

Definition client_get (b : backend) (url : string) : result response :=
  match http_get b url with
  | Fails e => raise e
  | Responds r => ok r
  end.

Definition client_post (b : backend) (url : string) (files : multipart) : result response :=
  match http_post b url files with
  | Fails e => raise e
  | Responds r => ok r
  end.

Definition is_success (r : response) : bool :=
  (200 <=? status_code r) && (status_code r <=? 299).

(** [r.raise_for_status()]: httpx raises [HTTPStatusError] unless the status
    is 2xx. *)
Definition raise_for_status (r : response) : result unit :=
  if is_success r then ok tt
  else raise (Exn HTTPStatusError (status_error r)).

(** [check_health(api_url)] *)
Definition check_health (b : backend) (api_url : string) : result pyval :=
  try_except
    (let url := api_url ++ "/health" in
     r <- client_get b url ;;
     raise_for_status r ;;
     json r)%result
    (fun e => ok (VDict [("status", VStr "error"); ("error", VStr (exn_text e))])).

(** [process_claim(api_url, file_content, filename, mime)] *)
Definition process_claim (b : backend) (api_url file_content filename mime : string)
  : result pyval :=
  try_except
    (let files := {| field := "file"; file_name := filename;
                     file_content := file_content; content_type := mime |} in
     let url := api_url ++ "/process-claim/upload" in
     r <- client_post b url files ;;
     raise_for_status r ;;
     json r)%result
    (fun e => ok (VDict [("success", VBool false); ("error", VStr (exn_text e))])).

(** The mime guess of [main]:
    [name_lower = uploaded.name.lower()], then [".png"] against the rest. *)
Definition infer_mime (name : string) : string :=
  let name_lower := lower name in
  if endswith name_lower ".png" then "image/png" else "image/jpeg".

(** The eight spellings of the suffix [.png] that differ in case only. *)
Definition png_spellings : list string :=
  [".png"; ".pnG"; ".pNg"; ".pNG"; ".Png"; ".PnG"; ".PNg"; ".PNG"].

(** ** Result formatter and view *)

(** [repr] of a [float] (the shortest text that reads back as the same
    binary64) is the interpreter's and is not rewritten here: the renderer
    takes it as an interface.  A cell goes through it only when a float
    sits where text is expected; the cost cell has its own format. *)
Class FloatRepr := float_repr : spec_float -> string.

Section Renderer.

Context {float_text : FloatRepr} {metric_text : MetricError}.

Definition backslash : ascii := ascii_of_nat 92.
Definition quote1 : ascii := "'"%char.
Definition quote2 : ascii := ascii_of_nat 34.

Definition hex_digit (n : N) : ascii :=
  match String.get (N.to_nat n) "0123456789abcdef" with
  | Some c => c
  | None => "0"%char
  end.

(** [str.isprintable] on one code point below 256. *)
Definition is_printable (c : ascii) : bool :=
  negb ((code c <? 32)%N || between 127 160 c || (code c =? 173)%N).

Definition escape_char (quote c : ascii) : string :=
  if Ascii.eqb c quote || Ascii.eqb c backslash then String backslash (String c "")
  else if (code c =? 9)%N then String backslash "t"
  else if (code c =? 10)%N then String backslash "n"
  else if (code c =? 13)%N then String backslash "r"
  else if is_printable c then String c ""
  else String backslash
         (String "x" (String (hex_digit (code c / 16)) (String (hex_digit (code c mod 16)) ""))).

Fixpoint escape (quote : ascii) (s : string) : string :=
  match s with
  | EmptyString => EmptyString
  | String c r => escape_char quote c ++ escape quote r
  end.

(** [repr(s)] for a [str]: single quotes, unless the text has a single
    quote and no double quote. *)
Definition repr_str (s : string) : string :=
  let quote := if mem_char quote1 s && negb (mem_char quote2 s) then quote2 else quote1 in
  String quote (escape quote s ++ String quote "").

Definition join (sep : string) (parts : list string) : string := String.concat sep parts.

(** [repr(v)] *)
Fixpoint py_repr (v : pyval) : string :=
  match v with
  | VNone => "None"
  | VBool b => if b then "True" else "False"
  | VInt z => str_int z
  | VFloat f => float_repr f
  | VStr s => repr_str s
  | VList l => "[" ++ join ", " (map py_repr l) ++ "]"
  | VDict d =>
      "{" ++ join ", " (map (fun '(k, x) => repr_str k ++ ": " ++ py_repr x) d) ++ "}"
  end.

(** [str(v)], which is also what an f-string field [{v}] inserts. *)
Definition py_str (v : pyval) : string :=
  match v with
  | VStr s => s
  | _ => py_repr v
  end.

(** The Estimated Cost field:
    [f"${est:,.2f}" if isinstance(est,(int,float)) else (est if est is not None else "N/A")]
    as inserted in the enclosing f-string. *)
Definition cost_cell (est : pyval) : result string :=
  match est with
  | VBool b => (s <- format_int (if b then 1 else 0) ;; ok ("$" ++ s))%result
  | VInt z => (s <- format_int z ;; ok ("$" ++ s))%result
  | VFloat f => ok ("$" ++ format_float f)
  | VNone => ok "N/A"
  | _ => ok (py_str est)
  end.

(** [damage.get("affected_areas", []) or []] *)
Definition affected_areas (damage : pyval) : result pyval :=
  (a <- dict_get damage "affected_areas" (VList []) ;; ok (py_or a (VList [])))%result.

(** The Affected Areas field: [len(areas) if isinstance(areas,list) else "N/A"]. *)
Definition count_cell (areas : pyval) : string :=
  match areas with
  | VList l => str_int (Z.of_nat (List.length l))
  | _ => "N/A"
  end.

(** The two fields as the damage panel derives them from the damage
    section: the lookup, then the cell. *)
Definition displayed_count (damage : pyval) : result string :=
  (areas <- affected_areas damage ;; ok (count_cell areas))%result.

Definition displayed_cost (damage : pyval) : result string :=
  (est <- dict_get damage "estimated_cost" VNone ;; cost_cell est)%result.

(** Pieces of markup shared by the literals of the renderer. *)
Definition open_div (cls : string) : string := "<div class=" ++ dq ++ cls ++ dq ++ ">".
Definition div (cls body : string) : string := open_div cls ++ body ++ "</div>".
Definition kv_row (k v : string) : string := "  " ++ div "k" k ++ div "v" v ++ nl.
Definition kv_table (rows : string) : string := nl ++ open_div "kv" ++ nl ++ rows ++ "</div>" ++ nl.

(** [data.get(name, {}) or {}] *)
Definition section_of (data : pyval) (name : string) : result pyval :=
  (s <- dict_get data name (VDict []) ;; ok (py_or s (VDict [])))%result.

(** [{section.get(key, "N/A")}] inside an f-string *)
Definition field_text (section : pyval) (key : string) : result string :=
  (v <- dict_get section key (VStr "N/A") ;; ok (py_str v))%result.

Fixpoint bullets (areas : list pyval) : ui unit :=
  match areas with
  | [] => ret tt
  | a :: r => st_markdown ("- " ++ py_str a) false ;; bullets r
  end.

(** [display_results(data)] *)
Definition display_results (data : pyval) : ui unit :=
  if negb (truthy data) then ret tt
  else
    vehicle <- lift (section_of data "vehicle_info") ;;
    damage <- lift (section_of data "damage_assessment") ;;
    incident <- lift (section_of data "incident_info") ;;
    meta <- lift (section_of data "metadata") ;;
    st_markdown (div "section-h" "Claim Summary") true ;;
    st_columns 4 ;;
    within "c1"
      (make <- lift (dict_get vehicle "make" (VStr "")) ;;
       model <- lift (dict_get vehicle "model" (VStr "")) ;;
       st_metric "Vehicle"
         (py_or (VStr (strip (py_str make ++ " " ++ py_str model))) (VStr "N/A"))) ;;
    within "c2"
      (year <- lift (dict_get vehicle "year" (VStr "N/A")) ;; st_metric "Year" year) ;;
    within "c3"
      (n <- lift (dict_get meta "ocr_characters" (VStr "N/A")) ;;
       st_metric "OCR Characters" n) ;;
    within "c4"
      (wf <- lift (dict_get meta "workflow" (VStr "N/A")) ;; st_metric "Workflow" wf) ;;
    st_markdown "" false ;;
    st_columns 2 ;;
    within "left"
      (st_markdown (open_div "card") true ;;
       st_markdown (div "card-title" "Vehicle Information") true ;;
       make <- lift (field_text vehicle "make") ;;
       model <- lift (field_text vehicle "model") ;;
       color <- lift (field_text vehicle "color") ;;
       year <- lift (field_text vehicle "year") ;;
       st_markdown
         (kv_table (kv_row "Make" make ++ kv_row "Model" model ++
                    kv_row "Color" color ++ kv_row "Year" year)) true ;;
       st_markdown "</div>" true ;;
       st_markdown "" false ;;
       st_markdown (open_div "card") true ;;
       st_markdown (div "card-title" "Incident Details") true ;;
       date <- lift (field_text incident "date") ;;
       location <- lift (field_text incident "location") ;;
       st_markdown (kv_table (kv_row "Date" date ++ kv_row "Location" location)) true ;;
       desc <- lift (dict_get incident "description" (VStr "N/A")) ;;
       st_markdown "<div style='margin-top:10px; color:#0F172A;'><b>Description</b></div>" true ;;
       st_write desc ;;
       st_markdown "</div>" true) ;;
    within "right"
      (st_markdown (open_div "card") true ;;
       st_markdown (div "card-title" "Damage Assessment") true ;;
       sev <- lift (dict_get damage "severity" (VStr "N/A")) ;;
       est <- lift (dict_get damage "estimated_cost" VNone) ;;
       areas <- lift (affected_areas damage) ;;
       let sev_html := severity_pill (Some (py_str sev)) in
       cost <- lift (cost_cell est) ;;
       st_markdown
         (kv_table (kv_row "Severity" sev_html ++ kv_row "Estimated Cost" cost ++
                    kv_row "Affected Areas" (count_cell areas))) true ;;
       match areas with
       | VList (a :: r) =>
           st_markdown "<div style='margin-top:10px;'><b>Areas</b></div>" true ;;
           bullets (a :: r)
       | _ => ret tt
       end ;;
       st_markdown "</div>" true ;;
       st_markdown "" false ;;
       st_markdown (open_div "card") true ;;
       st_markdown (div "card-title" "Trace & Metadata") true ;;
       source <- lift (field_text meta "source_image") ;;
       st_markdown
         (nl ++ open_div "kv" ++ nl ++
          "  " ++ div "k" "Source Image" ++
          "<div class=" ++ dq ++ "v" ++ dq ++ " style=" ++ dq ++
          "font-weight:600; font-size:0.85rem;" ++ dq ++ ">" ++ source ++ "</div>" ++ nl ++
          "</div>" ++ nl ++
          "<p class=" ++ dq ++ "card-subtle" ++ dq ++ " style=" ++ dq ++ "margin-top:10px;" ++
          dq ++ ">" ++ nl ++
          "Tip: Use this metadata to correlate with logs/traces in Application Insights." ++ nl ++
          "</p>" ++ nl) true ;;
       st_markdown "</div>" true).

(** The file picked in the uploader. *)
Record uploaded_file := { name : string; getvalue : string }.

(** U+2026 in UTF-8, the one character of the painted text above 255. *)
Definition ellipsis : string :=
  String (ascii_of_nat 226) (String (ascii_of_nat 128) (String (ascii_of_nat 166) "")).

(** [main], the block under [if process_btn and uploaded:] up to the end of
    [with st.status(...)]: the claim is submitted and the status updated.
    [session_api_url] is [st.session_state.api_url], which the sidebar has
    just assigned. *)
Definition submit (b : backend) (session_api_url : string) (uploaded : uploaded_file)
  : ui pyval :=
  st_markdown "" false ;;
  with_status
    (paint (StatusUpdate "Uploading image..." "running") ;;
     let file_bytes := getvalue uploaded in
     let mime := infer_mime (name uploaded) in
     paint (StatusWrite ("Calling OCR + Structuring workflow" ++ ellipsis)) ;;
     result <- lift (process_claim b session_api_url file_bytes (name uploaded) mime) ;;
     success <- lift (dict_get result "success" VNone) ;;
     (if truthy success
      then paint (StatusUpdate "Processing complete" "complete")
      else paint (StatusUpdate "Processing failed" "error")) ;;
     ret result).

(** [main], from [st.divider()] to the end of the results. *)
Definition show_results (result : pyval) : ui unit :=
  st_divider ;;
  st_markdown (div "section-h" "Results") true ;;
  st_markdown ("<p class=" ++ dq ++ "section-p" ++ dq ++
               ">Structured claim information extracted from the image.</p>") true ;;
  success <- lift (dict_get result "success" VNone) ;;
  if truthy success then
    st_markdown ("<span class=" ++ dq ++ "pill pill-ok" ++ dq ++ ">Success</span>") true ;;
    st_markdown "" false ;;
    data <- lift (dict_get result "data" (VDict [])) ;;
    display_results data ;;
    st_markdown "" false ;;
    within "expander" (st_json result)
  else
    st_markdown ("<span class=" ++ dq ++ "pill pill-bad" ++ dq ++ ">Error</span>") true ;;
    message <- lift (dict_get result "error" (VStr "Unknown error")) ;;
    st_error message.

(** The whole of [if process_btn and uploaded:]. *)
Definition process_and_show (b : backend) (session_api_url : string)
    (uploaded : uploaded_file) : ui unit :=
  result <- submit b session_api_url uploaded ;; show_results result.

(** ** The view, read as the specification describes it

    The specification splits the work in two: the result formatter derives
    display values from the payload, with a fallback for what is missing,
    and the view renderer paints them.  [derive] and [layout] are that
    reading, stated without the monad; the theorems relate
    [display_results] to them. *)

(** [isinstance(v, (int, float))] *)
Definition is_number (v : pyval) : bool :=
  match v with
  | VBool _ | VInt _ | VFloat _ => true
  | _ => false
  end.

(** The display values of one payload. *)
Record cells := {
  vehicle_metric : pyval;
  year_metric : pyval;
  ocr_metric : pyval;
  workflow_metric : pyval;
  make_text : string;
  model_text : string;
  color_text : string;
  year_text : string;
  date_text : string;
  location_text : string;
  description : pyval;
  severity_html : string;
  cost_text : string;
  count_text : string;
  area_list : list pyval;
  source_text : string
}.

(** The section [name] of the payload [d] when it is an object, and the
    empty section otherwise. *)
Definition section_dict (d : list (string * pyval)) (name : string) : list (string * pyval) :=
  match lookup name d with
  | Some (VDict s) => s
  | _ => []
  end.

(** A section the renderer can read: absent, falsy ([null], [{}], ...) or
    an object. *)
Definition section_ok (d : list (string * pyval)) (name : string) : Prop :=
  match lookup name d with
  | None => True
  | Some v => truthy v = false \/ exists s, v = VDict s
  end.

(** The three metrics that show a field of the payload as it is take
    values [st.metric] accepts; the Vehicle metric is always a text. *)
Definition metrics_ok (d : list (string * pyval)) : Prop :=
  accepted_by_metric (get_or (section_dict d "vehicle_info") "year" (VStr "N/A")) = true /\
  accepted_by_metric (get_or (section_dict d "metadata") "ocr_characters" (VStr "N/A")) = true /\
  accepted_by_metric (get_or (section_dict d "metadata") "workflow" (VStr "N/A")) = true.

(** The first value, in the order of the metrics, that [st.metric]
    refuses, if one does. *)
Definition first_refused (d : list (string * pyval)) : option pyval :=
  let year := get_or (section_dict d "vehicle_info") "year" (VStr "N/A") in
  let ocr := get_or (section_dict d "metadata") "ocr_characters" (VStr "N/A") in
  let wf := get_or (section_dict d "metadata") "workflow" (VStr "N/A") in
  if negb (accepted_by_metric year) then Some year
  else if negb (accepted_by_metric ocr) then Some ocr
  else if negb (accepted_by_metric wf) then Some wf
  else None.

Definition derive (V D I M : list (string * pyval)) (cost : string) : cells := {|
  vehicle_metric :=
    py_or (VStr (strip (py_str (get_or V "make" (VStr "")) ++ " " ++
                        py_str (get_or V "model" (VStr ""))))) (VStr "N/A");
  year_metric := get_or V "year" (VStr "N/A");
  ocr_metric := get_or M "ocr_characters" (VStr "N/A");
  workflow_metric := get_or M "workflow" (VStr "N/A");
  make_text := py_str (get_or V "make" (VStr "N/A"));
  model_text := py_str (get_or V "model" (VStr "N/A"));
  color_text := py_str (get_or V "color" (VStr "N/A"));
  year_text := py_str (get_or V "year" (VStr "N/A"));
  date_text := py_str (get_or I "date" (VStr "N/A"));
  location_text := py_str (get_or I "location" (VStr "N/A"));
  description := get_or I "description" (VStr "N/A");
  severity_html := severity_pill (Some (py_str (get_or D "severity" (VStr "N/A"))));
  cost_text := cost;
  count_text := count_cell (py_or (get_or D "affected_areas" (VList [])) (VList []));
  area_list :=
    match py_or (get_or D "affected_areas" (VList [])) (VList []) with
    | VList l => l
    | _ => []
    end;
  source_text := py_str (get_or M "source_image" (VStr "N/A"))
|}.

(** Every cell at its fallback. *)
Definition blank_cells : cells := {|
  vehicle_metric := VStr "N/A";
  year_metric := VStr "N/A";
  ocr_metric := VStr "N/A";
  workflow_metric := VStr "N/A";
  make_text := "N/A";
  model_text := "N/A";
  color_text := "N/A";
  year_text := "N/A";
  date_text := "N/A";
  location_text := "N/A";
  description := VStr "N/A";
  severity_html := pill_html Neutral "N/A";
  cost_text := "N/A";
  count_text := "0";
  area_list := [];
  source_text := "N/A"
|}.

Definition area_bullets (areas : list pyval) : list element :=
  match areas with
  | [] => []
  | _ => Markdown "<div style='margin-top:10px;'><b>Areas</b></div>" true ::
         map (fun a => Markdown ("- " ++ py_str a) false) areas
  end.

(** The page painted for given display values. *)
Definition layout (c : cells) : list element :=
  List.app
    [ Markdown (div "section-h" "Claim Summary") true;
      Columns 4;
      Enter "c1"; Metric "Vehicle" (vehicle_metric c); Leave "c1";
      Enter "c2"; Metric "Year" (year_metric c); Leave "c2";
      Enter "c3"; Metric "OCR Characters" (ocr_metric c); Leave "c3";
      Enter "c4"; Metric "Workflow" (workflow_metric c); Leave "c4";
      Markdown "" false;
      Columns 2;
      Enter "left";
      Markdown (open_div "card") true;
      Markdown (div "card-title" "Vehicle Information") true;
      Markdown (kv_table (kv_row "Make" (make_text c) ++ kv_row "Model" (model_text c) ++
                          kv_row "Color" (color_text c) ++ kv_row "Year" (year_text c))) true;
      Markdown "</div>" true;
      Markdown "" false;
      Markdown (open_div "card") true;
      Markdown (div "card-title" "Incident Details") true;
      Markdown (kv_table (kv_row "Date" (date_text c) ++
                          kv_row "Location" (location_text c))) true;
      Markdown "<div style='margin-top:10px; color:#0F172A;'><b>Description</b></div>" true;
      Write (description c);
      Markdown "</div>" true;
      Leave "left";
      Enter "right";
      Markdown (open_div "card") true;
      Markdown (div "card-title" "Damage Assessment") true;
      Markdown (kv_table (kv_row "Severity" (severity_html c) ++
                          kv_row "Estimated Cost" (cost_text c) ++
                          kv_row "Affected Areas" (count_text c))) true ]
    (List.app (area_bullets (area_list c))
       [ Markdown "</div>" true;
         Markdown "" false;
         Markdown (open_div "card") true;
         Markdown (div "card-title" "Trace & Metadata") true;
         Markdown
           (nl ++ open_div "kv" ++ nl ++
            "  " ++ div "k" "Source Image" ++
            "<div class=" ++ dq ++ "v" ++ dq ++ " style=" ++ dq ++
            "font-weight:600; font-size:0.85rem;" ++ dq ++ ">" ++ source_text c ++
            "</div>" ++ nl ++
            "</div>" ++ nl ++
            "<p class=" ++ dq ++ "card-subtle" ++ dq ++ " style=" ++ dq ++ "margin-top:10px;" ++
            dq ++ ">" ++ nl ++
            "Tip: Use this metadata to correlate with logs/traces in Application Insights." ++
            nl ++ "</p>" ++ nl) true;
         Markdown "</div>" true;
         Leave "right" ]).

End Renderer.

(** ** The whole page: [main]

    The sidebar, the upload card and the preview use widgets the results
    view does not: a [widget] is one of its elements or one of those, and
    [page] is to widgets what [ui] is to elements.  Keyword arguments that
    only size a widget ([use_container_width], [label_visibility], the
    widths of the columns) are not recorded. *)

(** [st.image] decodes the bytes it is handed and raises on bytes that
    are no image; the uploader has only checked the extension of the
    name.  Which bytes decode, and the exception raised for the others,
    are the imaging library's and are taken as an interface: [None] when
    the bytes decode. *)
Class ImageDecoder := image_error : string -> option exn.

Section Page.

Context {float_text : FloatRepr} {metric_text : MetricError} {image_check : ImageDecoder}.

Inductive widget :=
| Element (e : element)
| Caption (body : pyval)
| TextInput (label value : string)
| Button (label : string) (primary disabled : bool)
| FileUploader (label : string) (types : list string)
| Image (name content : string).

Definition page (A : Type) : Type := list widget -> list widget * result A.

Definition page_ret {A : Type} (x : A) : page A := fun w => (w, inr x).

Definition page_then {A B : Type} (m : page A) (k : A -> page B) : page B :=
  fun w =>
    match m w with
    | (w', inl e) => (w', inl e)
    | (w', inr x) => k x w'
    end.

Definition page_lift {A : Type} (r : result A) : page A := fun w => (w, r).

Definition show (x : widget) : page unit := fun w => (List.app w [x], inr tt).

(** A part of the page written for the results view, run in place. *)
Definition embed {A : Type} (m : ui A) : page A :=
  fun w => let (t, r) := m [] in (List.app w (map Element t), r).

Arguments page_ret {A} x _ /.
Arguments page_then {A B} m k _ /.
Arguments page_lift {A} r _ /.
Arguments show x _ /.

Declare Scope page_scope.
Delimit Scope page_scope with page.
Notation "x <- m ;; k" := (page_then m (fun x => k)) : page_scope.
Notation "m ;; k" := (page_then m (fun _ => k)) : page_scope.

(** [with container: body] *)
Definition inside {A : Type} (container : string) (body : page A) : page A :=
  (show (Element (Enter container)) ;; x <- body ;;
   show (Element (Leave container)) ;; page_ret x)%page.

Definition markdown (body : string) (unsafe_allow_html : bool) : page unit :=
  show (Element (Markdown body unsafe_allow_html)).

(** [v == s] for a string literal [s]: only a [str] equals a [str]. *)
Definition equals_str (v : pyval) (s : string) : bool :=
  match v with
  | VStr t => String.eqb t s
  | _ => false
  end.

(** What the user did before this run of the script: the text in the URL
    field if it was edited, the file picked if any, and the button clicked
    if any. *)
Record inputs := {
  typed_url : option string;
  health_clicked : bool;
  picked : option uploaded_file;
  process_clicked : bool
}.

(** [main], under [if st.button("Check API Health", ...)]. *)
Definition health_panel (b : backend) (api_url : string) : page unit :=
  (result <- inside "spinner" (page_lift (check_health b api_url)) ;;
   status <- page_lift (dict_get result "status" VNone) ;;
   if equals_str status "healthy" then
     markdown ("<span class=" ++ dq ++ "pill pill-ok" ++ dq ++ ">Healthy</span>") true ;;
     service <- page_lift (dict_get result "service" (VStr "")) ;;
     show (Caption service) ;;
     version <- page_lift (dict_get result "version" (VStr "")) ;;
     show (Caption (VStr ("Version: " ++ py_str version)))
   else
     markdown ("<span class=" ++ dq ++ "pill pill-bad" ++ dq ++ ">Unreachable</span>") true ;;
     error <- page_lift (dict_get result "error" (VStr "Unknown error")) ;;
     show (Caption error))%page.

(** The copyright sign (U+00A9) and the bullet (U+2022, in UTF-8) of the
    footer. *)
Definition copyright : string := String (ascii_of_nat 169) "".
Definition bullet : string :=
  String (ascii_of_nat 226) (String (ascii_of_nat 128) (String (ascii_of_nat 162) "")).

(** The body of [main()], given the default shown in the URL field
    ([value]) and the URL the sidebar settled on ([api_url]).  The block
    under [if process_btn and uploaded:] is [process_and_show]. *)
Definition main_page (b : backend) (inp : inputs) (value api_url : string) : page unit :=
  (markdown
     (nl ++ "<div>" ++ nl ++
      "  <p class=" ++ dq ++ "app-title" ++ dq ++ ">Claims Processing System</p>" ++ nl ++
      "  <p class=" ++ dq ++ "app-subtitle" ++ dq ++
      ">AI-powered extraction of structured claim data from uploaded images</p>" ++ nl ++
      "</div>" ++ nl) true ;;
   show (Element Divider) ;;
   inside "sidebar"
     (markdown "### Configuration" false ;;
      show (TextInput "API URL" value) ;;
      markdown "" false ;;
      show (Button "Check API Health" false false) ;;
      (if health_clicked inp then health_panel b api_url else page_ret tt) ;;
      markdown "---" false ;;
      show (Caption (VStr "Use **Local** API: `http://localhost:8080`")) ;;
      show (Caption (VStr "Or **Deployed** API: `https://<your-container-app-url>`"))) ;;
   show (Element (Columns 2)) ;;
   inside "left"
     (markdown (open_div "card") true ;;
      markdown (div "card-title" "Upload Claim Image") true ;;
      show (Caption (VStr "Supported formats: JPG, JPEG, PNG")) ;;
      show (FileUploader "Select an image" ["jpg"; "jpeg"; "png"]) ;;
      markdown "" false ;;
      show (Button "Process Claim" true
              match picked inp with Some _ => false | None => true end) ;;
      markdown "</div>" true) ;;
   inside "right"
     (markdown (open_div "card") true ;;
      markdown (div "card-title" "Preview") true ;;
      match picked inp with
      | Some uploaded =>
          match image_error (getvalue uploaded) with
          | None => show (Image (name uploaded) (getvalue uploaded))
          | Some e => page_lift (raise e)
          end ;;
          show (Caption (VStr (name uploaded)))
      | None => show (Caption (VStr "Upload an image to preview it here."))
      end ;;
      markdown "</div>" true) ;;
   (if process_clicked inp then
      match picked inp with
      | Some uploaded => embed (process_and_show b api_url uploaded)
      | None => page_ret tt
      end
    else page_ret tt) ;;
   markdown
     ("<div class=" ++ dq ++ "footer" ++ dq ++ ">" ++ copyright ++
      " 2026 Claims Processing Platform " ++ bullet ++ " Powered by Azure AI</div>") true)%page.

(** [main()], as a function of what the user did, the environment's
    [API_URL], the backend and the session: the page painted, with the
    exception that ended the run if one did, and the session left. *)
Definition main (env_API_URL : option string) (b : backend) (inp : inputs)
    (st : session_state) : (list widget * result unit) * session_state :=
  let (value, _) := get_api_url env_API_URL st in
  let (api_url, st') := sidebar_api_url env_API_URL (typed_url inp) st in
  (main_page b inp value api_url [], st').

End Page.

(** ** Readings used by the theorems on the page *)

(** The exception a round trip ends in for the client, if it does: the
    transport's, the status check's or the JSON decoder's. *)
Definition failure_of (x : exchange) : option exn :=
  match x with
  | Fails e => Some e
  | Responds r =>
      if is_success r then
        match json r with
        | inl e => Some e
        | inr _ => None
        end
      else Some (Exn HTTPStatusError (status_error r))
  end.

(** A rendering step that only adds to the page: what it paints and what
    it returns do not depend on what is painted already. *)
Definition appends {A : Type} (m : ui A) : Prop :=
  forall t, m t = (List.app t (fst (m [])), snd (m [])).

(** A bullet of the list of affected areas: Markdown text, not HTML, that
    starts with a dash and a space. *)
Definition is_bullet (e : element) : bool :=
  match e with
  | Markdown (String a (String b _)) false => Ascii.eqb a "-" && Ascii.eqb b " "
  | _ => false
  end.

(** The multipart field that [main] submits for a picked file. *)
Definition submitted (uploaded : uploaded_file) : multipart :=
  {| field := "file"; file_name := name uploaded; file_content := getvalue uploaded;
     content_type := infer_mime (name uploaded) |}.

(** The widgets of the status block and of the failure path around the
    message [message]. *)
Definition failed_page (message : pyval) : list element :=
  [ Markdown "" false;
    Enter "status";
    StatusUpdate "Uploading image..." "running";
    StatusWrite ("Calling OCR + Structuring workflow" ++ ellipsis);
    StatusUpdate "Processing failed" "error";
    Leave "status";
    Divider;
    Markdown (div "section-h" "Results") true;
    Markdown ("<p class=" ++ dq ++ "section-p" ++ dq ++
              ">Structured claim information extracted from the image.</p>") true;
    Markdown (pill_html High "Error") true;
    ErrorBox message ].

(** The page of a successful submission around the claim panels [panels];
    [body] is the whole answer. *)
Definition succeeded_page (panels : list element) (body : pyval) : list element :=
  List.app
    [ Markdown "" false;
      Enter "status";
      StatusUpdate "Uploading image..." "running";
      StatusWrite ("Calling OCR + Structuring workflow" ++ ellipsis);
      StatusUpdate "Processing complete" "complete";
      Leave "status";
      Divider;
      Markdown (div "section-h" "Results") true;
      Markdown ("<p class=" ++ dq ++ "section-p" ++ dq ++
                ">Structured claim information extracted from the image.</p>") true;
      Markdown (pill_html Low "Success") true;
      Markdown "" false ]
    (List.app panels
       [ Markdown "" false; Enter "expander"; Json body; Leave "expander" ]).

(** A text of white space only, the empty text included. *)
Fixpoint blank (s : string) : bool :=
  match s with
  | EmptyString => true
  | String c r => is_space c && blank r
  end.

(** ** Sample inputs for the closed examples *)

(** An instance of [FloatRepr] for the closed examples: Python's text for
    zeros, infinities, NaN and whole numbers below 10^16, which is all the
    examples use; it is not meant beyond them. *)
Definition sample_float_repr : FloatRepr :=
  fun f =>
    match f with
    | S754_zero s => if s then "-0.0" else "0.0"
    | S754_infinity s => if s then "-inf" else "inf"
    | S754_nan => "nan"
    | S754_finite s m e =>
        (if s then "-" else "") ++ dec (round_half_even (Z.pos m) e) ++ ".0"
    end.

(** An instance of [MetricError] for the closed examples: the text as
    Streamlit words it for a value of a type it does not accept. *)
Definition sample_metric_error : MetricError :=
  fun v =>
    "'" ++ py_str (float_text := sample_float_repr) v ++ "' is of type <class '" ++
    type_name v ++ "'>, which is not an accepted type. value only accepts: " ++
    "int, float, str, or None. Please convert the value to an accepted type.".

(** A backend that refuses the connection. *)
Definition refusing : backend := {|
  http_get := fun _ => Fails (Exn TransportError "[Errno 111] Connection refused");
  http_post := fun _ _ => Fails (Exn TransportError "[Errno 111] Connection refused")
|}.

(** A backend whose transport fails with an exception that carries no text. *)
Definition silent : backend := {|
  http_get := fun _ => Fails (Exn TransportError "");
  http_post := fun _ _ => Fails (Exn TransportError "")
|}.

(** A backend that answers every request 200 OK with the given body. *)
Definition answering (body : pyval) : backend :=
  let r := {| status_code := 200; status_error := ""; json := inr body |} in
  {| http_get := fun _ => Responds r; http_post := fun _ _ => Responds r |}.

(** A backend that is up but out of service: 503 and a body that is not
    JSON. *)
Definition unavailable : response := {|
  status_code := 503;
  status_error := "Server error '503 Service Unavailable' for url 'http://localhost:8080/health'";
  json := inl (Exn JSONDecodeError "Expecting value: line 1 column 1 (char 0)")
|}.

Definition rejecting : backend :=
  {| http_get := fun _ => Responds unavailable; http_post := fun _ _ => Responds unavailable |}.

Definition photo : uploaded_file := {| name := "photo.jpg"; getvalue := "JFIF" |}.

(** The answer of a successful extraction (the specification's scenario C). *)
Definition scenario_C : pyval :=
  VDict [("success", VBool true);
         ("data",
          VDict [("vehicle_info",
                  VDict [("make", VStr "Toyota"); ("model", VStr "Camry");
                         ("year", VInt 2020)]);
                 ("damage_assessment",
                  VDict [("severity", VStr "severe");
                         ("estimated_cost", VFloat (S754_finite false 1125 2));
                         ("affected_areas", VList [VStr "front bumper"; VStr "hood"])])])].

(** The answer of a healthy service. *)
Definition healthy_body : list (string * pyval) :=
  [("status", VStr "healthy"); ("service", VStr "claims-api"); ("version", VStr "1.0.0")].

(** The claim of scenario C, and the answer that carries it. *)
Definition claim_C : list (string * pyval) :=
  [("vehicle_info",
    VDict [("make", VStr "Toyota"); ("model", VStr "Camry"); ("year", VInt 2020)]);
   ("damage_assessment",
    VDict [("severity", VStr "severe");
           ("estimated_cost", VFloat (S754_finite false 1125 2));
           ("affected_areas", VList [VStr "front bumper"; VStr "hood"])])].

Definition answer_C : list (string * pyval) :=
  [("success", VBool true); ("data", VDict claim_C)].

(** A session that holds no URL yet. *)
Definition new_session : session_state := {| api_url := None |}.

(** A PNG file of one grey pixel, byte for byte, and the file picked
    with it. *)
Definition tiny_png : string :=
  string_of_list_ascii
    (map (fun n => ascii_of_N (Z.to_N n))
       [137; 80; 78; 71; 13; 10; 26; 10; 0; 0; 0; 13; 73; 72; 68; 82; 0; 0; 0; 1;
        0; 0; 0; 1; 8; 0; 0; 0; 0; 58; 126; 155; 85; 0; 0; 0; 10; 73; 68; 65; 84;
        120; 218; 99; 96; 0; 0; 0; 2; 0; 1; 229; 39; 222; 252; 0; 0; 0; 0; 73; 69;
        78; 68; 174; 66; 96; 130]).

Definition pixel : uploaded_file := {| name := "pixel.png"; getvalue := tiny_png |}.

(** An instance of [ImageDecoder] for the closed examples: it decodes the
    one-pixel file and refuses every other content, which is right for
    the contents the examples use and is not meant beyond them. *)
Definition sample_image_error : ImageDecoder :=
  fun content =>
    if String.eqb content tiny_png then None
    else Some (Exn UnidentifiedImageError "cannot identify image file").

(** A user who typed the local URL, picked the one-pixel file and clicked
    both buttons; and one who picked the photo, which is no image. *)
Definition busy : inputs := {|
  typed_url := Some "http://localhost:8080/";
  health_clicked := true;
  picked := Some pixel;
  process_clicked := true
|}.

Definition careless : inputs := {|
  typed_url := None;
  health_clicked := false;
  picked := Some photo;
  process_clicked := true
|}.

(** A backend that refuses the two requests of the local service and
    answers every other request. *)
Definition refusing_locally : backend :=
  let r := {| status_code := 200; status_error := ""; json := inr (VDict healthy_body) |} in
  {| http_get := fun url =>
       if String.eqb url "http://localhost:8080/health"
       then Fails (Exn TransportError "[Errno 111] Connection refused")
       else Responds r;
     http_post := fun url _ =>
       if String.eqb url "http://localhost:8080/process-claim/upload"
       then Fails (Exn TransportError "[Errno 111] Connection refused")
       else Responds r |}.

(** * Theorems *)

Section Facts.

Context {float_text : FloatRepr} {metric_text : MetricError} {image_check : ImageDecoder}.

(** ** Facts on strings *)

Lemma is_space_lower_char c : is_space (lower_char c) = is_space c.
Proof. destruct c as [[] [] [] [] [] [] [] []]; reflexivity. Qed.

Lemma lower_lstrip s : lower (lstrip_by is_space s) = lstrip_by is_space (lower s).
Proof.
  induction s as [|c r IH]; simpl; [reflexivity|].
  rewrite is_space_lower_char. destruct (is_space c); [exact IH | reflexivity].
Qed.

Lemma lower_rstrip s : lower (rstrip_by is_space s) = rstrip_by is_space (lower s).
Proof.
  induction s as [|c r IH]; simpl; [reflexivity|].
  rewrite <- IH, is_space_lower_char.
  destruct (rstrip_by is_space r) as [|d r']; simpl.
  - destruct (is_space c); reflexivity.
  - reflexivity.
Qed.

(** Trimming and lower-casing commute, so "lower-case, then trim" (the
    specification) and [.strip().lower()] (the code) are the same string. *)
Lemma lower_strip s : lower (strip s) = strip (lower s).
Proof. unfold strip. now rewrite lower_rstrip, lower_lstrip. Qed.

Lemma in_list_In s ws : in_list s ws = true <-> In s ws.
Proof.
  unfold in_list. rewrite existsb_exists. split.
  - intros (w & Hw & E). apply String.eqb_eq in E. now subst.
  - intros H. exists s. split; [assumption | apply String.eqb_refl].
Qed.

Lemma in_list_not_In s ws : in_list s ws = false <-> ~ In s ws.
Proof.
  rewrite <- in_list_In. destruct (in_list s ws); split; congruence.
Qed.

(** ** C1 *)

(** C1. [severity_pill] lower-cases and trims its input; a result among
    severe, critical, high, significant gives the label High in the high
    tier, moderate or medium give Medium, minor or low give Low; any other
    non-empty input is passed through unchanged as the label of a neutral
    pill, and the empty string and [None] give N/A in the neutral tier. *)
Theorem severity_pill_classification (severity : option string) :
  let s := strip (lower (or_empty severity)) in
  (In s ["severe"; "critical"; "high"; "significant"] ->
     severity_pill severity = pill_html High "High") /\
  (In s ["moderate"; "medium"] ->
     severity_pill severity = pill_html Medium "Medium") /\
  (In s ["minor"; "low"] ->
     severity_pill severity = pill_html Low "Low") /\
  (~ In s ["severe"; "critical"; "high"; "significant";
           "moderate"; "medium"; "minor"; "low"] ->
     forall raw, severity = Some raw -> raw <> EmptyString ->
     severity_pill severity = pill_html Neutral raw) /\
  (severity = None \/ severity = Some EmptyString ->
     severity_pill severity = pill_html Neutral "N/A").
Proof.
  intros s. unfold severity_pill. rewrite lower_strip. fold s.
  repeat split.
  - intros H. apply in_list_In in H. now rewrite H.
  - intros H.
    assert (N1 : in_list s ["severe"; "critical"; "high"; "significant"] = false).
    { apply in_list_not_In. simpl in *. intuition congruence. }
    apply in_list_In in H. now rewrite N1, H.
  - intros H.
    assert (N1 : in_list s ["severe"; "critical"; "high"; "significant"] = false).
    { apply in_list_not_In. simpl in *. intuition congruence. }
    assert (N2 : in_list s ["moderate"; "medium"] = false).
    { apply in_list_not_In. simpl in *. intuition congruence. }
    apply in_list_In in H. now rewrite N1, N2, H.
  - intros H raw -> Hraw.
    assert (N1 : in_list s ["severe"; "critical"; "high"; "significant"] = false).
    { apply in_list_not_In. simpl in *. intuition. }
    assert (N2 : in_list s ["moderate"; "medium"] = false).
    { apply in_list_not_In. simpl in *. intuition. }
    assert (N3 : in_list s ["minor"; "low"] = false).
    { apply in_list_not_In. simpl in *. intuition. }
    rewrite N1, N2, N3. destruct raw; [congruence | reflexivity].
  - intros [-> | ->]; reflexivity.
Qed.

(** ** Suffixes, and what [rstrip] leaves *)

Lemma endswith_spec s suffix :
  endswith s suffix = true <-> exists stem, s = stem ++ suffix.
Proof.
  induction s as [|c r IH]; cbn [endswith].
  - rewrite orb_false_r, String.eqb_eq. split.
    + intros <-. now exists EmptyString.
    + intros ([|d stem] & E); simpl in E; [auto | discriminate].
  - rewrite orb_true_iff, String.eqb_eq, IH. split.
    + intros [<- | (stem & ->)].
      * now exists EmptyString.
      * now exists (String c stem).
    + intros ([|d stem] & E); simpl in E.
      * now left.
      * injection E as -> ->. right. now exists stem.
Qed.

Lemma lower_app a b : lower (a ++ b) = lower a ++ lower b.
Proof. induction a; simpl; congruence. Qed.

Lemma lower_app_inv s a b :
  lower s = a ++ b -> exists a' b', s = a' ++ b' /\ lower a' = a /\ lower b' = b.
Proof.
  revert s. induction a as [|c a IH]; intros s E; simpl in E.
  - exists EmptyString, s. auto.
  - destruct s as [|d s]; simpl in E; [discriminate|].
    injection E as Ec Es. destruct (IH _ Es) as (a' & b' & -> & <- & <-).
    exists (String d a'), b'. simpl. now rewrite Ec.
Qed.

Lemma lower_char_dot c : lower_char c = "."%char -> c = "."%char.
Proof. destruct c as [[] [] [] [] [] [] [] []]; vm_compute; congruence. Qed.

Lemma lower_char_p c : lower_char c = "p"%char -> c = "p"%char \/ c = "P"%char.
Proof. destruct c as [[] [] [] [] [] [] [] []]; vm_compute; intros; try discriminate; auto. Qed.

Lemma lower_char_n c : lower_char c = "n"%char -> c = "n"%char \/ c = "N"%char.
Proof. destruct c as [[] [] [] [] [] [] [] []]; vm_compute; intros; try discriminate; auto. Qed.

Lemma lower_char_g c : lower_char c = "g"%char -> c = "g"%char \/ c = "G"%char.
Proof. destruct c as [[] [] [] [] [] [] [] []]; vm_compute; intros; try discriminate; auto. Qed.

Lemma lower_is_png ext : lower ext = ".png" <-> In ext png_spellings.
Proof.
  split.
  - destruct ext as [|c0 [|c1 [|c2 [|c3 [|c4 r]]]]]; simpl; try discriminate.
    intros E. injection E as E0 E1 E2 E3.
    apply lower_char_dot in E0. apply lower_char_p in E1.
    apply lower_char_n in E2. apply lower_char_g in E3. subst c0.
    destruct E1, E2, E3; subst; tauto.
  - unfold png_spellings. simpl. intuition (subst; reflexivity).
Qed.

Lemma rstrip_by_last p s q c : rstrip_by p s = q ++ String c EmptyString -> p c = false.
Proof.
  revert q. induction s as [|d r IH]; intros q E; simpl in E.
  - destruct q; discriminate.
  - destruct (rstrip_by p r) as [|d' r'] eqn:R.
    + destruct (p d) eqn:Pd.
      * destruct q; discriminate.
      * destruct q as [|x q]; simpl in E.
        -- now injection E as <-.
        -- injection E as _ E. destruct q; discriminate.
    + destruct q as [|x q]; simpl in E; [discriminate|].
      injection E as _ E. now apply (IH q).
Qed.

Lemma rstrip_by_idem p s : rstrip_by p (rstrip_by p s) = rstrip_by p s.
Proof.
  induction s as [|d r IH]; simpl; [reflexivity|].
  destruct (rstrip_by p r) as [|d' r'] eqn:R.
  - destruct (p d) eqn:Pd; simpl; [reflexivity | now rewrite Pd].
  - change (rstrip_by p (String d (String d' r')) = String d (String d' r')).
    cbn [rstrip_by] in *. now rewrite IH.
Qed.

Lemma rstrip_slash_clean s : ~ trailing_slash (rstrip_chars "/" s).
Proof.
  intros (stem & E). apply rstrip_by_last in E. discriminate.
Qed.

(** ** C7 *)

(** C7. The API base URL is the session's [api_url] when the session has
    one, else the value of the environment variable [API_URL] when it is
    set, else the built-in address; and trailing slashes are stripped: what
    [get_api_url] returns, and what the sidebar hands to the two HTTP
    operations and stores back, never ends in a slash. *)
Theorem api_url_resolution (env_API_URL : option string) (st : session_state) :
  let chosen :=
    match api_url st, env_API_URL with
    | Some override, _ => override
    | None, Some e => e
    | None, None => BUILT_IN_API_URL
    end in
  fst (get_api_url env_API_URL st) = rstrip_chars "/" chosen /\
  ~ trailing_slash (fst (get_api_url env_API_URL st)) /\
  forall typed : option string,
    let used := sidebar_api_url env_API_URL typed st in
    ~ trailing_slash (fst used) /\
    api_url (snd used) = Some (fst used) /\
    fst used = rstrip_chars "/" (strip match typed with
                                       | Some t => t
                                       | None => rstrip_chars "/" chosen
                                       end).
Proof.
  intros chosen.
  assert (G : fst (get_api_url env_API_URL st) = rstrip_chars "/" chosen).
  { unfold get_api_url, chosen, DEFAULT_API_URL.
    destruct (api_url st) as [u|]; simpl; [reflexivity|].
    destruct env_API_URL; apply rstrip_by_idem. }
  split; [exact G|]. split.
  - rewrite G. apply rstrip_slash_clean.
  - intros typed used. unfold used, sidebar_api_url.
    destruct (get_api_url env_API_URL st) as [value st'] eqn:E.
    simpl in G. subst value. simpl.
    split; [apply rstrip_slash_clean | split; reflexivity].
Qed.

(** ** C6 *)

(** C6. The mime type guessed for an uploaded file is [image/png] exactly
    when its name ends in [.png] in any mix of upper and lower case, and
    [image/jpeg] for every other name. *)
Theorem infer_mime_by_suffix (name : string) :
  (infer_mime name = "image/png" <->
     exists stem ext, name = stem ++ ext /\ In ext png_spellings) /\
  (infer_mime name = "image/jpeg" <->
     ~ exists stem ext, name = stem ++ ext /\ In ext png_spellings).
Proof.
  assert (P : endswith (lower name) ".png" = true <->
              exists stem ext, name = stem ++ ext /\ In ext png_spellings).
  { rewrite endswith_spec. split.
    - intros (stem' & E). apply lower_app_inv in E.
      destruct E as (stem & ext & -> & _ & L). exists stem, ext.
      split; [reflexivity | now apply lower_is_png].
    - intros (stem & ext & -> & I). apply lower_is_png in I.
      exists (lower stem). now rewrite lower_app, I. }
  unfold infer_mime. destruct (endswith (lower name) ".png").
  - split; split; intros H; try reflexivity; try discriminate.
    + now apply P.
    + exfalso. apply H. now apply P.
  - split; split; intros H; try reflexivity; try discriminate.
    + apply P in H. discriminate.
    + intros H'. apply P in H'. discriminate.
Qed.

(** ** C5 *)

(** C5. [process_claim] never raises.  A 2xx answer whose body parses is
    returned as parsed, so its [success] flag is the body's own; a
    transport error, a status outside 2xx and a body that does not parse
    each give the dict with [success] false and the text of the exception
    under [error]. *)
Theorem process_claim_never_raises
    (b : backend) (api_url file_content filename mime : string) :
  let url := api_url ++ "/process-claim/upload" in
  let files := {| field := "file"; file_name := filename;
                  file_content := file_content; content_type := mime |} in
  let failed (e : exn) :=
    inr (VDict [("success", VBool false); ("error", VStr (exn_text e))]) in
  let answer := process_claim b api_url file_content filename mime in
  (exists v, answer = inr v) /\
  (forall r body, http_post b url files = Responds r -> is_success r = true ->
     json r = inr body ->
     answer = inr body /\
     (flagged <- answer ;; dict_get flagged "success" VNone)%result =
       dict_get body "success" VNone) /\
  (forall e, http_post b url files = Fails e -> answer = failed e) /\
  (forall r, http_post b url files = Responds r -> is_success r = false ->
     answer = failed (Exn HTTPStatusError (status_error r))) /\
  (forall r e, http_post b url files = Responds r -> is_success r = true ->
     json r = inl e -> answer = failed e).
Proof.
  intros url files failed answer. subst url files failed answer.
  unfold process_claim, client_post, raise_for_status. cbv zeta.
  split; [| split; [| split; [| split]]].
  - destruct (http_post _ _ _) as [e | r]; simpl; [eauto|].
    destruct (is_success r); simpl; [destruct (json r) |]; simpl; eauto.
  - intros r body H S J. rewrite H; simpl. rewrite S; simpl. rewrite J. now split.
  - intros e H. now rewrite H.
  - intros r H S. rewrite H; simpl. now rewrite S.
  - intros r e H S J. rewrite H; simpl. rewrite S; simpl. now rewrite J.
Qed.

(** ** C4 *)

(** C4, as the code has it.  [check_health] never raises: a transport
    error, a status outside 2xx and a body that does not parse each give
    the dict with [status] error and, under [error], the text of the
    exception caught, whatever that text is; a 2xx answer whose body parses
    is returned as parsed. *)
Theorem check_health_never_raises (b : backend) (api_url : string) :
  let url := api_url ++ "/health" in
  let failed (e : exn) :=
    inr (VDict [("status", VStr "error"); ("error", VStr (exn_text e))]) in
  let answer := check_health b api_url in
  (exists v, answer = inr v) /\
  (forall r body, http_get b url = Responds r -> is_success r = true ->
     json r = inr body -> answer = inr body) /\
  (forall e, http_get b url = Fails e -> answer = failed e) /\
  (forall r, http_get b url = Responds r -> is_success r = false ->
     answer = failed (Exn HTTPStatusError (status_error r))) /\
  (forall r e, http_get b url = Responds r -> is_success r = true ->
     json r = inl e -> answer = failed e).
Proof.
  intros url failed answer. subst url failed answer.
  unfold check_health, client_get, raise_for_status. cbv zeta.
  split; [| split; [| split; [| split]]].
  - destruct (http_get _ _) as [e | r]; simpl; [eauto|].
    destruct (is_success r); simpl; [destruct (json r) |]; simpl; eauto.
  - intros r body H S J. rewrite H; simpl. rewrite S; simpl. now rewrite J.
  - intros e H. now rewrite H.
  - intros r H S. rewrite H; simpl. now rewrite S.
  - intros r e H S J. rewrite H; simpl. rewrite S; simpl. now rewrite J.
Qed.

(** ** Lookups *)

Lemma get_or_absent d k default : lookup k d = None -> get_or d k default = default.
Proof. unfold get_or. now intros ->. Qed.

Lemma get_or_present d k default v : lookup k d = Some v -> get_or d k default = v.
Proof. unfold get_or. now intros ->. Qed.

Lemma py_or_falsy v w : truthy v = false -> py_or v w = w.
Proof. unfold py_or. now intros ->. Qed.

Lemma py_or_truthy v w : truthy v = true -> py_or v w = v.
Proof. unfold py_or. now intros ->. Qed.

(** One step of a run: the binds, the paints and the lookups on a dict
    reduce; the looked-up values stay as they are. *)
Ltac ui_steps :=
  cbn [ui_then ret and_then ok lift raise dict_get st_divider st_markdown
       st_metric st_write st_columns st_error st_json within paint List.app].

(** ** C2 *)

(** C2, as the code has it.  The count shown for the affected areas is the
    length of the value when it is a list (0 for the empty list); it is 0
    as well when the field is absent, [None] or any other falsy value,
    because of [or []]; it is N/A only for a truthy value that is not a
    list.  (The cell expression alone gives N/A for whatever is not a list,
    but an absent or falsy value never reaches it.) *)
Theorem affected_count_rendering (d : list (string * pyval)) :
  (forall l, lookup "affected_areas" d = Some (VList l) ->
     displayed_count (VDict d) = inr (str_int (Z.of_nat (List.length l)))) /\
  (lookup "affected_areas" d = None -> displayed_count (VDict d) = inr "0") /\
  (forall v, lookup "affected_areas" d = Some v -> truthy v = false ->
     displayed_count (VDict d) = inr "0") /\
  (forall v, lookup "affected_areas" d = Some v -> truthy v = true ->
     (forall l, v <> VList l) -> displayed_count (VDict d) = inr "N/A") /\
  (forall v, (forall l, v <> VList l) -> count_cell v = "N/A").
Proof.
  unfold displayed_count, affected_areas. cbn [dict_get and_then ok].
  split; [| split; [| split; [| split]]].
  - intros l H. rewrite (get_or_present _ _ _ _ H).
    destruct l; reflexivity.
  - intros H. now rewrite (get_or_absent _ _ _ H).
  - intros v H F. rewrite (get_or_present _ _ _ _ H), (py_or_falsy _ _ F). reflexivity.
  - intros v H T N. rewrite (get_or_present _ _ _ _ H), (py_or_truthy _ _ T).
    destruct v; try reflexivity. now destruct (N l).
  - intros v N. destruct v; try reflexivity. now destruct (N l).
Qed.

(** ** C10 *)

(** The run of [bullets] never raises. *)
Lemma bullets_run areas t :
  bullets areas t =
  (List.app t (map (fun a => Markdown ("- " ++ py_str a) false) areas), inr tt).
Proof.
  revert t. induction areas as [|a r IH]; intros t;
    cbn [bullets ui_then ret st_markdown paint map].
  - now rewrite app_nil_r.
  - rewrite IH, <- app_assoc. reflexivity.
Qed.

(** C10. When the answer has a truthy [success] and no [data] field, or a
    [data] that is an empty dict or [None] (or falsy in any other way),
    [display_results] returns at once and paints nothing: after the Results
    heading and the Success pill only the raw JSON expander follows. *)
Theorem empty_data_paints_no_panels (d : list (string * pyval)) :
  truthy (get_or d "success" VNone) = true ->
  (lookup "data" d = None \/
   exists v, lookup "data" d = Some v /\ truthy v = false) ->
  run (display_results (get_or d "data" (VDict []))) = ([], inr tt) /\
  run (show_results (VDict d)) =
    ([Divider;
      Markdown (div "section-h" "Results") true;
      Markdown ("<p class=" ++ dq ++ "section-p" ++ dq ++
                ">Structured claim information extracted from the image.</p>") true;
      Markdown (pill_html Low "Success") true;
      Markdown "" false;
      Markdown "" false;
      Enter "expander"; Json (VDict d); Leave "expander"],
     inr tt).
Proof.
  intros S D.
  assert (F : truthy (get_or d "data" (VDict [])) = false).
  { destruct D as [H | (v & H & F)].
    - now rewrite (get_or_absent _ _ _ H).
    - now rewrite (get_or_present _ _ _ _ H). }
  assert (R : forall t, display_results (get_or d "data" (VDict [])) t = (t, inr tt)).
  { intros t. unfold display_results. now rewrite F. }
  split; [apply R|].
  unfold run, show_results.
  ui_steps.
  rewrite S.
  ui_steps.
  rewrite R. reflexivity.
Qed.

(** ** The status block *)

(** What [submit] paints and returns, by the answer of [process_claim]. *)
Lemma submit_run b api_url uploaded t :
  submit b api_url uploaded t =
  match process_claim b api_url (getvalue uploaded) (name uploaded)
          (infer_mime (name uploaded)) with
  | inl e =>
      (List.app t
         [ Markdown "" false; Enter "status";
           StatusUpdate "Uploading image..." "running";
           StatusWrite ("Calling OCR + Structuring workflow" ++ ellipsis);
           StatusState "error" ], inl e)
  | inr (VDict d) =>
      (List.app t
         [ Markdown "" false; Enter "status";
           StatusUpdate "Uploading image..." "running";
           StatusWrite ("Calling OCR + Structuring workflow" ++ ellipsis);
           if truthy (get_or d "success" VNone)
           then StatusUpdate "Processing complete" "complete"
           else StatusUpdate "Processing failed" "error";
           Leave "status" ], inr (VDict d))
  | inr v =>
      (List.app t
         [ Markdown "" false; Enter "status";
           StatusUpdate "Uploading image..." "running";
           StatusWrite ("Calling OCR + Structuring workflow" ++ ellipsis);
           StatusState "error" ],
       inl (Exn AttributeError ("'" ++ type_name v ++ "' object has no attribute 'get'")))
  end.
Proof.
  unfold submit, with_status. ui_steps.
  destruct (process_claim _ _ _ _ _) as [e | v]; ui_steps.
  - rewrite <- app_assoc. reflexivity.
  - destruct v as [| | | | | | d]; ui_steps; try (rewrite <- app_assoc; reflexivity).
    destruct (truthy (get_or d "success" VNone)); ui_steps;
      rewrite <- app_assoc; reflexivity.
Qed.

(** ** C9 *)

(** C9, as the code has it.  When the answer to the submission is 2xx and
    its body parses to a JSON object that has no [success] key, or a falsy
    one, the view takes the failure path: the status ends as failed, and
    after the Results heading come the Error pill and [st.error] with the
    body's [error] value when it has one and the generic text Unknown error
    otherwise; no claim data is painted. *)
Theorem missing_success_takes_failure_path
    (b : backend) (session_api_url : string) (uploaded : uploaded_file)
    (r : response) (d : list (string * pyval)) :
  http_post b (session_api_url ++ "/process-claim/upload")
    {| field := "file"; file_name := name uploaded;
       file_content := getvalue uploaded;
       content_type := infer_mime (name uploaded) |} = Responds r ->
  is_success r = true ->
  json r = inr (VDict d) ->
  (lookup "success" d = None \/
   exists v, lookup "success" d = Some v /\ truthy v = false) ->
  run (process_and_show b session_api_url uploaded) =
    ([Markdown "" false;
      Enter "status";
      StatusUpdate "Uploading image..." "running";
      StatusWrite ("Calling OCR + Structuring workflow" ++ ellipsis);
      StatusUpdate "Processing failed" "error";
      Leave "status";
      Divider;
      Markdown (div "section-h" "Results") true;
      Markdown ("<p class=" ++ dq ++ "section-p" ++ dq ++
                ">Structured claim information extracted from the image.</p>") true;
      Markdown (pill_html High "Error") true;
      ErrorBox (get_or d "error" (VStr "Unknown error"))],
     inr tt) /\
  (lookup "error" d = None ->
     get_or d "error" (VStr "Unknown error") = VStr "Unknown error").
Proof.
  intros P S J F.
  assert (T : truthy (get_or d "success" VNone) = false).
  { destruct F as [H | (v & H & F)].
    - now rewrite (get_or_absent _ _ _ H).
    - now rewrite (get_or_present _ _ _ _ H). }
  assert (A : process_claim b session_api_url (getvalue uploaded) (name uploaded)
                (infer_mime (name uploaded)) = inr (VDict d)).
  { unfold process_claim, client_post, raise_for_status. cbv zeta.
    rewrite P; simpl. rewrite S; simpl. now rewrite J. }
  split; [| apply get_or_absent].
  unfold run, process_and_show. cbn [ui_then].
  rewrite submit_run, A, T.
  unfold show_results.
  ui_steps.
  rewrite T.
  reflexivity.
Qed.

(** ** Digits, grouping and rounding *)

Lemma list_of_append a b :
  list_ascii_of_string (a ++ b) = List.app (list_ascii_of_string a) (list_ascii_of_string b).
Proof. induction a; simpl; congruence. Qed.

Lemma uint_digits d :
  forallb is_digit (list_ascii_of_string (NilEmpty.string_of_uint d)) = true.
Proof. induction d; simpl; auto. Qed.

Lemma dec_digits n : forallb is_digit (list_ascii_of_string (dec n)) = true.
Proof.
  unfold dec, NilZero.string_of_uint.
  destruct (N.to_uint (Z.to_N n)) eqn:E; try reflexivity; rewrite <- E; apply uint_digits.
Qed.

Lemma dec_nonempty n : list_ascii_of_string (dec n) <> [].
Proof.
  unfold dec, NilZero.string_of_uint.
  destruct (N.to_uint (Z.to_N n)); discriminate.
Qed.

(** Induction that follows [commas_from_right]: three digits at a time. *)
Lemma by_threes (P : list ascii -> Prop) :
  P [] -> (forall a, P [a]) -> (forall a b, P [a; b]) -> (forall a b c, P [a; b; c]) ->
  (forall a b c d r, P (d :: r) -> P (a :: b :: c :: d :: r)) ->
  forall l, P l.
Proof.
  intros H0 H1 H2 H3 Hstep l.
  assert (G : P l /\ (forall a, P (a :: l)) /\ (forall a b, P (a :: b :: l))).
  { induction l as [|x l (IH0 & IH1 & IH2)].
    - auto.
    - split; [apply IH1 | split; [intros; apply IH2 |]].
      intros a b. destruct l as [|d r]; [apply H3 | apply Hstep, IH0]. }
  apply G.
Qed.

Lemma comma_groups_app x y :
  comma_groups x = true -> comma_groups y = true -> comma_groups (List.app x y) = true.
Proof.
  intros Hx Hy. revert Hx.
  assert (G : forall n l, (List.length l <= n)%nat -> comma_groups l = true ->
                          comma_groups (List.app l y) = true).
  { induction n as [|n IH]; intros l Hl H.
    - destruct l; [exact Hy | cbn in Hl; lia].
    - destruct l as [|s [|a [|b [|c r]]]]; try discriminate H; [exact Hy|].
      cbn [List.app]. cbn [comma_groups] in H |- *.
      apply andb_true_iff in H as [K L]. rewrite K. cbn [andb].
      apply IH; [cbn in Hl; lia | exact L]. }
  apply (G (List.length x) x). lia.
Qed.

Lemma grouped_digits_app x y :
  grouped_digits x = true -> comma_groups y = true -> grouped_digits (List.app x y) = true.
Proof.
  intros Hx Hy. destruct x as [|a r]; [discriminate|].
  cbn [grouped_digits List.app] in *.
  apply andb_true_iff in Hx as [Ha Hx]. rewrite Ha. cbn [andb].
  apply orb_true_iff in Hx as [Hx | Hx].
  { now rewrite (comma_groups_app _ _ Hx Hy). }
  destruct r as [|b r2]; [discriminate|]. cbn [List.app].
  apply andb_true_iff in Hx as [Hb Hx]. rewrite Hb. cbn [andb].
  apply orb_true_iff. right.
  apply orb_true_iff in Hx as [Hx | Hx].
  { now rewrite (comma_groups_app _ _ Hx Hy). }
  destruct r2 as [|c r3]; [discriminate|]. cbn [List.app].
  apply andb_true_iff in Hx as [Hc Hx]. rewrite Hc. cbn [andb].
  apply orb_true_iff. right. now apply comma_groups_app.
Qed.

(** Grouping from the right gives the grouped shape. *)
Lemma commas_grouped m :
  m <> [] -> forallb is_digit m = true ->
  grouped_digits (List.rev (commas_from_right m)) = true.
Proof.
  induction m as [|a|a b|a b c|a b c d r IH] using by_threes; intros NE D.
  - congruence.
  - cbn [forallb List.rev commas_from_right List.app grouped_digits comma_groups] in *.
    destruct (is_digit a); [reflexivity | discriminate].
  - cbn [forallb List.rev commas_from_right List.app grouped_digits comma_groups] in *.
    destruct (is_digit a), (is_digit b); try discriminate; reflexivity.
  - cbn [forallb List.rev commas_from_right List.app grouped_digits comma_groups] in *.
    destruct (is_digit a), (is_digit b), (is_digit c); try discriminate; reflexivity.
  - change (forallb is_digit (a :: b :: c :: d :: r))
      with (is_digit a && (is_digit b && (is_digit c && forallb is_digit (d :: r)))) in D.
    apply andb_true_iff in D as [Da D]. apply andb_true_iff in D as [Db D].
    apply andb_true_iff in D as [Dc Dr].
    change (commas_from_right (a :: b :: c :: d :: r))
      with (a :: b :: c :: ","%char :: commas_from_right (d :: r)).
    cbn [List.rev]. rewrite <- !app_assoc. cbn [List.app].
    apply grouped_digits_app.
    + apply IH; [discriminate | exact Dr].
    + cbn [comma_groups]. rewrite Da, Db, Dc. reflexivity.
Qed.

(** Grouping only adds commas: the digits are all there, in order. *)
Lemma commas_keep_digits m :
  forallb is_digit m = true -> filter is_digit (commas_from_right m) = m.
Proof.
  induction m as [|a|a b|a b c|a b c d r IH] using by_threes; intros D.
  - reflexivity.
  - cbn [forallb commas_from_right filter] in *.
    destruct (is_digit a); [reflexivity | discriminate].
  - cbn [forallb commas_from_right filter] in *.
    destruct (is_digit a), (is_digit b); try discriminate; reflexivity.
  - cbn [forallb commas_from_right filter] in *.
    destruct (is_digit a), (is_digit b), (is_digit c); try discriminate; reflexivity.
  - change (forallb is_digit (a :: b :: c :: d :: r))
      with (is_digit a && (is_digit b && (is_digit c && forallb is_digit (d :: r)))) in D.
    apply andb_true_iff in D as [Da D]. apply andb_true_iff in D as [Db D].
    apply andb_true_iff in D as [Dc Dr].
    change (commas_from_right (a :: b :: c :: d :: r))
      with (a :: b :: c :: ","%char :: commas_from_right (d :: r)).
    cbn [filter]. rewrite Da, Db, Dc. change (is_digit ",") with false.
    cbv iota. now rewrite (IH Dr).
Qed.

Lemma forallb_rev (f : ascii -> bool) l : forallb f (List.rev l) = forallb f l.
Proof.
  induction l as [|a l IH]; [reflexivity|].
  cbn [List.rev forallb]. rewrite forallb_app, IH. cbn. now rewrite andb_true_r, andb_comm.
Qed.

Lemma filter_rev_digits l :
  filter is_digit (List.rev l) = List.rev (filter is_digit l).
Proof.
  induction l as [|a l IH]; [reflexivity|].
  cbn [List.rev filter]. rewrite filter_app, IH. cbn [filter].
  destruct (is_digit a); cbn [List.rev]; [reflexivity | now rewrite app_nil_r].
Qed.

Lemma group_thousands_list digits :
  list_ascii_of_string (group_thousands digits) =
  List.rev (commas_from_right (List.rev (list_ascii_of_string digits))).
Proof. unfold group_thousands. apply list_ascii_of_string_of_list_ascii. Qed.

Lemma group_thousands_shape n :
  grouped_digits (list_ascii_of_string (group_thousands (dec n))) = true.
Proof.
  rewrite group_thousands_list. apply commas_grouped.
  - intros E. apply (f_equal (@List.rev ascii)) in E. rewrite rev_involutive in E.
    now apply dec_nonempty in E.
  - rewrite forallb_rev. apply dec_digits.
Qed.

Lemma group_thousands_digits n :
  filter is_digit (list_ascii_of_string (group_thousands (dec n))) =
  list_ascii_of_string (dec n).
Proof.
  rewrite group_thousands_list, filter_rev_digits, commas_keep_digits.
  - apply rev_involutive.
  - rewrite forallb_rev. apply dec_digits.
Qed.

(** The two decimals, by enumeration of the hundred cases. *)
Lemma below_100 (P : Z -> bool) :
  forallb P (map Z.of_nat (seq 0 100)) = true -> forall r, 0 <= r < 100 -> P r = true.
Proof.
  intros H r Hr. rewrite forallb_forall in H. apply H.
  apply in_map_iff. exists (Z.to_nat r). split; [lia|]. apply in_seq. lia.
Qed.

Lemma two_digits_shape r :
  0 <= r < 100 ->
  exists d1 d2, list_ascii_of_string (two_digits r) = [d1; d2] /\
                is_digit d1 = true /\ is_digit d2 = true /\
                read_digits [d1; d2] = r.
Proof.
  intros Hr.
  pose (P := fun r => match list_ascii_of_string (two_digits r) with
                      | [d1; d2] => is_digit d1 && is_digit d2 && (read_digits [d1; d2] =? r)
                      | _ => false
                      end).
  assert (H : P r = true) by (apply below_100; [vm_compute; reflexivity | exact Hr]).
  unfold P in H. destruct (list_ascii_of_string (two_digits r)) as [|d1 [|d2 [|]]];
    try discriminate.
  rewrite !andb_true_iff, Z.eqb_eq in H. destruct H as ((A & B) & C).
  now exists d1, d2.
Qed.

(** Reading digits back. *)
Lemma read_from_shift l acc :
  read_from acc l = acc * 10 ^ Z.of_nat (List.length l) + read_from 0 l.
Proof.
  revert acc. induction l as [|c l IH]; intros acc.
  - cbn. lia.
  - cbn [read_from fold_left List.length]. fold (read_from (10 * acc + digit_value c) l).
    fold (read_from (10 * 0 + digit_value c) l).
    rewrite (IH (10 * acc + digit_value c)), (IH (10 * 0 + digit_value c)).
    rewrite Nat2Z.inj_succ, Z.pow_succ_r by lia. ring.
Qed.

Lemma read_digits_app l1 l2 :
  read_digits (List.app l1 l2) =
  read_digits l1 * 10 ^ Z.of_nat (List.length l2) + read_digits l2.
Proof.
  unfold read_digits, read_from. rewrite fold_left_app.
  apply (read_from_shift l2).
Qed.

Lemma read_uint_acc d acc :
  read_from (Z.pos acc) (list_ascii_of_string (NilEmpty.string_of_uint d)) =
  Z.pos (Pos.of_uint_acc d acc).
Proof.
  revert acc. induction d; intros acc; cbn [NilEmpty.string_of_uint list_ascii_of_string
    read_from fold_left Pos.of_uint_acc]; try reflexivity;
  match goal with
  | |- fold_left _ _ ?a = Z.pos (Pos.of_uint_acc _ ?p) =>
      replace a with (Z.pos p) by (vm_compute digit_value; lia); apply IHd
  end.
Qed.

Lemma read_uint d :
  read_digits (list_ascii_of_string (NilEmpty.string_of_uint d)) = Z.of_N (Pos.of_uint d).
Proof.
  induction d; cbn [NilEmpty.string_of_uint list_ascii_of_string Pos.of_uint];
    try reflexivity; try exact IHd;
  unfold read_digits, read_from; cbn [fold_left];
  match goal with
  | |- fold_left _ _ ?a = Z.of_N (N.pos (Pos.of_uint_acc _ ?p)) =>
      replace a with (Z.pos p) by (vm_compute; reflexivity); apply read_uint_acc
  end.
Qed.

Lemma read_dec n : 0 <= n -> read_digits (list_ascii_of_string (dec n)) = n.
Proof.
  intros Hn. unfold dec.
  assert (E : Z.of_N (N.of_uint (N.to_uint (Z.to_N n))) = n).
  { rewrite DecimalN.Unsigned.of_to. lia. }
  revert E. generalize (N.to_uint (Z.to_N n)). intros u E.
  unfold NilZero.string_of_uint.
  destruct u; rewrite <- E; try apply read_uint; reflexivity.
Qed.

Lemma round_half_even_nonneg n e : 0 <= n -> 0 <= round_half_even n e.
Proof.
  intros Hn. unfold round_half_even. destruct (0 <=? e) eqn:E.
  - apply Z.mul_nonneg_nonneg; [lia | apply Z.pow_nonneg; lia].
  - apply Z.leb_gt in E.
    assert (D : 0 < 2 ^ (- e)) by (apply Z.pow_pos_nonneg; lia).
    assert (Q : 0 <= n / 2 ^ (- e)) by (apply Z.div_pos; lia).
    cbv zeta. destruct (2 * (n mod 2 ^ (- e)) ?= 2 ^ (- e));
      [destruct (Z.even _) | |]; lia.
Qed.

(** The rounding is to a nearest integer: the result is within half a unit
    of [n * 2^e], here with the denominator cleared. *)
Lemma round_half_even_nearest n e :
  e < 0 ->
  2 * Z.abs (round_half_even n e * 2 ^ (- e) - n) <= 2 ^ (- e).
Proof.
  intros He. unfold round_half_even.
  destruct (0 <=? e) eqn:E; [apply Z.leb_le in E; lia|]. cbv zeta.
  assert (D : 0 < 2 ^ (- e)) by (apply Z.pow_pos_nonneg; lia).
  pose proof (Z.div_mod n (2 ^ (- e)) ltac:(lia)) as DM.
  pose proof (Z.mod_pos_bound n (2 ^ (- e)) D) as MB.
  set (d := 2 ^ (- e)) in *. set (q := n / d) in *. set (m := n mod d) in *.
  destruct (Z.compare_spec (2 * m) d) as [C | C | C];
    [destruct (Z.even q) | |]; nia.
Qed.

(** ** The formatted amount *)

Lemma digit_not_minus c : is_digit c = true -> Ascii.eqb c "-" = false.
Proof. destruct c as [[] [] [] [] [] [] [] []]; vm_compute; congruence. Qed.

Lemma fixed2_list negative cents :
  list_ascii_of_string (fixed2 negative cents) =
  List.app (if negative then ["-"%char] else [])
    (List.app (list_ascii_of_string (group_thousands (dec (cents / 100))))
       ("."%char :: list_ascii_of_string (two_digits (cents mod 100)))).
Proof.
  unfold fixed2. rewrite !list_of_append. now destruct negative.
Qed.

Lemma amount_shape_fixed2 cents :
  0 <= cents ->
  amount_shape (List.app (list_ascii_of_string (group_thousands (dec (cents / 100))))
                  ("."%char :: list_ascii_of_string (two_digits (cents mod 100)))) = true.
Proof.
  intros Hc.
  destruct (two_digits_shape (cents mod 100)) as (d1 & d2 & -> & D1 & D2 & _).
  { apply Z.mod_pos_bound. lia. }
  unfold amount_shape. rewrite rev_app_distr. cbn [List.rev List.app].
  rewrite rev_involutive, D1, D2, group_thousands_shape. reflexivity.
Qed.

(** A formatted amount has the money shape and denotes its cents. *)
Lemma fixed2_money negative cents :
  0 <= cents ->
  money_shape ("$" ++ fixed2 negative cents) = true /\
  money_cents ("$" ++ fixed2 negative cents) = Some (negative, cents).
Proof.
  intros Hc.
  pose proof (amount_shape_fixed2 cents Hc) as A.
  pose proof (group_thousands_shape (cents / 100)) as G.
  pose proof (group_thousands_digits (cents / 100)) as F.
  destruct (two_digits_shape (cents mod 100)) as (d1 & d2 & T & D1 & D2 & R).
  { apply Z.mod_pos_bound. lia. }
  assert (V : read_digits
                (filter is_digit
                   (List.app (list_ascii_of_string (group_thousands (dec (cents / 100))))
                      ("."%char :: list_ascii_of_string (two_digits (cents mod 100))))) = cents).
  { rewrite filter_app, F, T. cbn [filter]. rewrite D1, D2.
    change (is_digit ".") with false. cbv iota.
    rewrite read_digits_app, R, read_dec by (apply Z.div_pos; lia).
    cbn [List.length]. change (10 ^ Z.of_nat 2) with 100.
    pose proof (Z.div_mod cents 100 ltac:(lia)). lia. }
  unfold money_shape, money_cents.
  cbn [append list_ascii_of_string]. rewrite fixed2_list.
  destruct negative; cbn [List.app].
  - change (Ascii.eqb "-" "-") with true. cbv iota. cbn [Ascii.eqb andb] .
    rewrite A, V. split; reflexivity.
  - destruct (list_ascii_of_string (group_thousands (dec (cents / 100)))) as [|g0 g] eqn:E;
      [discriminate G|].
    cbn [List.app] in *.
    assert (M : Ascii.eqb g0 "-" = false).
    { apply digit_not_minus. cbn [grouped_digits] in G.
      now apply andb_true_iff in G as [G _]. }
    rewrite M, A, V. split; reflexivity.
Qed.

Lemma format_float_money f :
  is_finite f = true ->
  money_shape ("$" ++ format_float f) = true /\
  money_cents ("$" ++ format_float f) = Some (float_cents f).
Proof.
  destruct f as [s | s | | s m e]; try discriminate; intros _; cbn [format_float float_cents].
  - apply fixed2_money. lia.
  - apply fixed2_money, round_half_even_nonneg. lia.
Qed.

Lemma float_of_int_finite z f : float_of_int z = inr f -> is_finite f = true.
Proof.
  unfold float_of_int, raise.
  destruct (binary_normalize 53 1024 z 0 false); cbn; intros H;
    try discriminate H; now injection H as <-.
Qed.

(** ** Small integers convert exactly *)

Lemma digits2_lower p : 2 ^ (Z.pos (digits2_pos p) - 1) <= Z.pos p.
Proof.
  induction p as [p IH | p IH |]; cbn [digits2_pos].
  - rewrite Pos2Z.inj_succ. replace (Z.succ (Z.pos (digits2_pos p)) - 1)
      with (Z.succ (Z.pos (digits2_pos p) - 1)) by lia.
    rewrite Z.pow_succ_r by lia. lia.
  - rewrite Pos2Z.inj_succ. replace (Z.succ (Z.pos (digits2_pos p)) - 1)
      with (Z.succ (Z.pos (digits2_pos p) - 1)) by lia.
    rewrite Z.pow_succ_r by lia. lia.
  - reflexivity.
Qed.

Lemma digits2_small p : Z.pos p < 2 ^ 53 -> Z.pos (digits2_pos p) <= 53.
Proof.
  intros H. pose proof (digits2_lower p) as L.
  assert (K : 2 ^ (Z.pos (digits2_pos p) - 1) < 2 ^ 53) by lia.
  apply Z.pow_lt_mono_r_iff in K; lia.
Qed.

Lemma shifted_value p q : Z.pos (Pos.iter xO p q) = Z.pos p * 2 ^ Z.pos q.
Proof.
  induction q as [|q IH] using Pos.peano_ind.
  - cbn [Pos.iter]. lia.
  - rewrite Pos.iter_succ, Pos2Z.inj_succ, Z.pow_succ_r by lia.
    rewrite Pos2Z.inj_xO, IH. lia.
Qed.

Lemma shifted_digits p q :
  Z.pos (digits2_pos (Pos.iter xO p q)) = Z.pos (digits2_pos p) + Z.pos q.
Proof.
  induction q as [|q IH] using Pos.peano_ind.
  - cbn [Pos.iter digits2_pos]. lia.
  - rewrite Pos.iter_succ. cbn [digits2_pos]. rewrite !Pos2Z.inj_succ, IH. lia.
Qed.

(** A mantissa of 53 bits with an exponent in range is left as it is. *)
Lemma binary_round_aux_53 s m e :
  Z.pos (digits2_pos m) = 53 -> -1074 <= e <= 971 ->
  binary_round_aux 53 1024 s (Z.pos m) e loc_Exact = S754_finite s m e.
Proof.
  intros D E.
  assert (F : fexp 53 1024 (Zdigits2 (Z.pos m) + e) - e = 0).
  { unfold fexp, emin. cbn [Zdigits2]. lia. }
  unfold binary_round_aux, shr_fexp. rewrite F.
  cbn [shr shr_record_of_loc shr_m loc_of_shr_record round_nearest_even].
  rewrite F. cbn [shr shr_record_of_loc shr_m].
  replace (e <=? 1024 - 53) with true by (symmetry; apply Z.leb_le; lia).
  reflexivity.
Qed.

Lemma binary_round_small s p :
  Z.pos p < 2 ^ 53 ->
  exists m e, binary_round 53 1024 s p 0 = S754_finite s m e /\
              e <= 0 /\ Z.pos m = Z.pos p * 2 ^ (- e).
Proof.
  intros H. pose proof (digits2_small p H) as D.
  unfold binary_round, shl_align.
  assert (F : fexp 53 1024 (Z.pos (digits2_pos p) + 0) = Z.pos (digits2_pos p) - 53).
  { unfold fexp, emin. lia. }
  rewrite F.
  destruct (Z.pos (digits2_pos p) - 53 - 0) as [| q | q] eqn:Q.
  - exists p, 0. rewrite binary_round_aux_53 by lia. repeat split; lia.
  - lia.
  - exists (Pos.iter xO p q), (Z.pos (digits2_pos p) - 53).
    rewrite binary_round_aux_53.
    + repeat split; [lia|]. rewrite shifted_value. f_equal. f_equal. lia.
    + rewrite shifted_digits. lia.
    + lia.
Qed.

Lemma round_half_even_exact n e : e <= 0 -> round_half_even (n * 2 ^ (- e)) e = n.
Proof.
  intros E. unfold round_half_even.
  destruct (Z.leb_spec 0 e) as [P | N].
  - assert (e = 0) by lia. subst e. cbn. lia.
  - assert (K : 0 < 2 ^ (- e)) by (apply Z.pow_pos_nonneg; lia).
    cbv zeta. rewrite Z.mod_mul, Z.div_mul by lia.
    replace (2 * 0 ?= 2 ^ (- e)) with Lt by (symmetry; apply Z.compare_lt_iff; lia).
    reflexivity.
Qed.

Lemma float_of_int_small z :
  Z.abs z < 2 ^ 53 ->
  exists f, float_of_int z = inr f /\ float_cents f = (z <? 0, 100 * Z.abs z).
Proof.
  intros H. unfold float_of_int, binary_normalize.
  destruct z as [| p | p].
  - exists (S754_zero false). split; reflexivity.
  - destruct (binary_round_small false p H) as (m & e & R & E & V).
    rewrite R. exists (S754_finite false m e). split; [reflexivity|].
    cbn [float_cents Z.ltb Z.compare Z.abs]. f_equal.
    rewrite V, Z.mul_assoc. now apply round_half_even_exact.
  - destruct (binary_round_small true p H) as (m & e & R & E & V).
    rewrite R. exists (S754_finite true m e). split; [reflexivity|].
    cbn [float_cents Z.ltb Z.compare Z.abs]. f_equal.
    rewrite V, Z.mul_assoc. now apply round_half_even_exact.
Qed.

(** A float with a mantissa and no binary fraction is a whole number of
    cents, and its sign is the float's. *)
Lemma float_cents_whole s m e :
  0 <= e -> float_cents (S754_finite s m e) = (s, 100 * Z.pos m * 2 ^ e).
Proof.
  intros E. cbn [float_cents]. unfold round_half_even.
  now replace (0 <=? e) with true by (symmetry; apply Z.leb_le; lia).
Qed.

(** ** C3 *)

(** C3, as the code has it.  The estimated cost is rendered as a currency
    sign, an optional minus, the units grouped in thousands and exactly two
    decimals when the value is a finite [float], or an [int] that converts
    to a [float].  The text denotes the value rounded to the nearest cent:
    for an [int] below 2^53 in magnitude it is the [int] itself, with its
    sign and no cents; for a [float] it has the sign of the [float] and its
    amount, exactly when the [float] has no binary fraction and within half
    a cent of it otherwise (ties to the even cent).  A larger [int] is
    rendered from the [float] it converts to.
    A [bool] counts as the number 1 or 0.  A value that is present and not
    a number (a string, a list, an object) is rendered as its own text, and
    an absent value or [None] as N/A. *)
Theorem cost_rendering :
  (forall f, is_finite f = true ->
     exists text, cost_cell (VFloat f) = inr text /\
                  money_shape text = true /\ money_cents text = Some (float_cents f)) /\
  (forall z, Z.abs z < 2 ^ 53 ->
     exists text, cost_cell (VInt z) = inr text /\
                  money_shape text = true /\
                  money_cents text = Some (z <? 0, 100 * Z.abs z)) /\
  (forall z f, float_of_int z = inr f ->
     exists text, cost_cell (VInt z) = inr text /\
                  money_shape text = true /\ money_cents text = Some (float_cents f)) /\
  (forall s m e, 0 <= e ->
     float_cents (S754_finite s m e) = (s, 100 * Z.pos m * 2 ^ e)) /\
  (forall s m e, e < 0 ->
     fst (float_cents (S754_finite s m e)) = s /\
     2 * Z.abs (snd (float_cents (S754_finite s m e)) * 2 ^ (- e) - 100 * Z.pos m)
       <= 2 ^ (- e)) /\
  (forall s, float_cents (S754_zero s) = (s, 0)) /\
  (forall b : bool, cost_cell (VBool b) = inr (if b then "$1.00" else "$0.00")) /\
  cost_cell (VFloat (S754_finite false 2469 (-1))) = inr "$1,234.50" /\
  (forall s, cost_cell (VStr s) = inr s) /\
  (forall est, is_number est = false -> est <> VNone -> cost_cell est = inr (py_str est)) /\
  cost_cell VNone = inr "N/A" /\
  (forall d, lookup "estimated_cost" d = None -> displayed_cost (VDict d) = inr "N/A") /\
  (forall d est, lookup "estimated_cost" d = Some est ->
     displayed_cost (VDict d) = cost_cell est).
Proof.
  assert (G : forall z f, float_of_int z = inr f ->
                exists text, cost_cell (VInt z) = inr text /\
                             money_shape text = true /\
                             money_cents text = Some (float_cents f)).
  { intros z f Z. exists ("$" ++ format_float f).
    destruct (format_float_money f (float_of_int_finite z f Z)) as [S C].
    unfold cost_cell, format_int. rewrite Z. now repeat split. }
  split; [| split; [| split; [| split; [| split; [| split; [| split; [| split;
    [| split; [| split; [| split; [| split]]]]]]]]]]].
  - intros f F. exists ("$" ++ format_float f).
    destruct (format_float_money f F) as [S C]. now repeat split.
  - intros z Z. destruct (float_of_int_small z Z) as (f & F & C).
    destruct (G z f F) as (text & E & S & M). exists text. rewrite <- C. now repeat split.
  - exact G.
  - intros s m e E. now apply float_cents_whole.
  - intros s m e E. split; [reflexivity|]. apply round_half_even_nearest, E.
  - reflexivity.
  - intros []; reflexivity.
  - reflexivity.
  - reflexivity.
  - intros est N NN. destruct est; try discriminate N; try reflexivity. congruence.
  - reflexivity.
  - intros d H. unfold displayed_cost. cbn [dict_get and_then ok].
    now rewrite (get_or_absent _ _ _ H).
  - intros d est H. unfold displayed_cost. cbn [dict_get and_then ok].
    now rewrite (get_or_present _ _ _ _ H).
Qed.

(** The only exception the cost cell raises. *)
Lemma cost_cell_raises est e :
  cost_cell est = inl e -> e = Exn OverflowError "int too large to convert to float".
Proof.
  assert (G : forall z, format_int z = inl e ->
                        e = Exn OverflowError "int too large to convert to float").
  { intros z. unfold format_int, float_of_int, raise.
    destruct (binary_normalize 53 1024 z 0 false); cbn; congruence. }
  destruct est as [| b | z | f | s | l | d]; cbn [cost_cell and_then ok];
    try discriminate; intros H.
  - destruct (format_int (if b then 1 else 0)) as [e0 | s] eqn:F; [| discriminate H].
    injection H as ->. exact (G _ F).
  - destruct (format_int z) as [e0 | s] eqn:F; [| discriminate H].
    injection H as ->. exact (G _ F).
Qed.

(** ** C8 *)

Lemma section_of_ok d name :
  section_ok d name ->
  section_of (VDict d) name = inr (VDict (section_dict d name)).
Proof.
  unfold section_ok, section_of, section_dict.
  cbn [dict_get and_then ok]. unfold get_or.
  destruct (lookup name d) as [v|]; [| reflexivity].
  intros [F | (s & ->)].
  - rewrite (py_or_falsy _ _ F). destruct v; try reflexivity.
    destruct d0; [reflexivity | discriminate].
  - unfold py_or. destruct s; reflexivity.
Qed.

Ltac view_steps :=
  cbn [ui_then ret and_then ok lift raise dict_get st_divider st_markdown
       st_write st_columns st_error st_json within paint List.app
       field_text affected_areas].

(** A metric that takes its value is painted. *)
Lemma st_metric_accepted label value t :
  accepted_by_metric value = true ->
  st_metric label value t = (List.app t [Metric label value], inr tt).
Proof. unfold st_metric. now intros ->. Qed.

Lemma st_metric_refused label value t :
  accepted_by_metric value = false ->
  st_metric label value t = (t, inl (Exn TypeError (metric_error value))).
Proof. unfold st_metric. now intros ->. Qed.

Lemma vehicle_accepted s : accepted_by_metric (py_or (VStr s) (VStr "N/A")) = true.
Proof. unfold py_or. now destruct (truthy (VStr s)). Qed.

(** What [display_results] does on a payload whose sections are readable
    and whose metrics take their values: it paints the layout of the
    derived cells, or raises what the cost cell raises. *)
Lemma display_results_run d :
  d <> [] ->
  section_ok d "vehicle_info" -> section_ok d "damage_assessment" ->
  section_ok d "incident_info" -> section_ok d "metadata" ->
  metrics_ok d ->
  let V := section_dict d "vehicle_info" in
  let D := section_dict d "damage_assessment" in
  let I := section_dict d "incident_info" in
  let M := section_dict d "metadata" in
  match displayed_cost (VDict D) with
  | inr cost => run (display_results (VDict d)) = (layout (derive V D I M cost), inr tt)
  | inl e => snd (run (display_results (VDict d))) = inl e
  end.
Proof.
  intros NE HV HD HI HM (HY & HO & HW) V D I M. fold V in HY. fold M in HO, HW.
  unfold run, display_results.
  replace (truthy (VDict d)) with true by (destruct d; [congruence | reflexivity]).
  cbn [negb].
  rewrite (section_of_ok _ _ HV). fold V. view_steps.
  rewrite (section_of_ok _ _ HD). fold D. view_steps.
  rewrite (section_of_ok _ _ HI). fold I. view_steps.
  rewrite (section_of_ok _ _ HM). fold M. view_steps.
  rewrite (st_metric_accepted _ _ _ (vehicle_accepted _)). view_steps.
  rewrite (st_metric_accepted _ _ _ HY). view_steps.
  rewrite (st_metric_accepted _ _ _ HO). view_steps.
  rewrite (st_metric_accepted _ _ _ HW). view_steps.
  unfold displayed_cost. cbn [dict_get and_then ok].
  destruct (cost_cell (get_or D "estimated_cost" VNone)) as [e | cost]; [reflexivity|].
  view_steps.
  unfold layout, derive. cbn [vehicle_metric year_metric ocr_metric workflow_metric
    make_text model_text color_text year_text date_text location_text description
    severity_html cost_text count_text area_list source_text].
  destruct (py_or (get_or D "affected_areas" (VList [])) (VList []))
    as [| | | | | [|a r] |]; view_steps; try reflexivity.
  rewrite bullets_run. view_steps.
  repeat (rewrite <- app_assoc; cbn [List.app]). reflexivity.
Qed.

(** What holds of C8.  Take a payload whose four sections are each absent,
    falsy ([null], an empty object) or an object, and whose year, character
    count and workflow are values a metric takes.  Rendering then paints
    the layout of the derived cells and fails only if the cost cell does,
    which a missing field never causes; a section that is absent or null
    is read as the empty section; and every field that is absent is shown
    by its fallback: N/A in each metric and each table field, the neutral
    N/A pill for the severity, 0 for the count of affected areas and no
    bullet.  With all four sections missing the page is the layout of
    [blank_cells]. *)
Theorem missing_fields_fall_back (d : list (string * pyval)) :
  d <> [] ->
  section_ok d "vehicle_info" -> section_ok d "damage_assessment" ->
  section_ok d "incident_info" -> section_ok d "metadata" ->
  metrics_ok d ->
  let V := section_dict d "vehicle_info" in
  let D := section_dict d "damage_assessment" in
  let I := section_dict d "incident_info" in
  let M := section_dict d "metadata" in
  (forall cost, displayed_cost (VDict D) = inr cost ->
     run (display_results (VDict d)) = (layout (derive V D I M cost), inr tt)) /\
  (forall e, snd (run (display_results (VDict d))) = inl e ->
     displayed_cost (VDict D) = inl e /\ exn_kind e = OverflowError /\
     exists z, lookup "estimated_cost" D = Some (VInt z)) /\
  (forall name, lookup name d = None \/ lookup name d = Some VNone ->
     section_dict d name = []) /\
  (forall cost,
     let c := derive V D I M cost in
     (lookup "make" V = None -> lookup "model" V = None -> vehicle_metric c = VStr "N/A") /\
     (lookup "year" V = None -> year_metric c = VStr "N/A" /\ year_text c = "N/A") /\
     (lookup "ocr_characters" M = None -> ocr_metric c = VStr "N/A") /\
     (lookup "workflow" M = None -> workflow_metric c = VStr "N/A") /\
     (lookup "make" V = None -> make_text c = "N/A") /\
     (lookup "model" V = None -> model_text c = "N/A") /\
     (lookup "color" V = None -> color_text c = "N/A") /\
     (lookup "date" I = None -> date_text c = "N/A") /\
     (lookup "location" I = None -> location_text c = "N/A") /\
     (lookup "description" I = None -> description c = VStr "N/A") /\
     (lookup "severity" D = None -> severity_html c = pill_html Neutral "N/A") /\
     (lookup "affected_areas" D = None -> count_text c = "0" /\ area_list c = []) /\
     (lookup "source_image" M = None -> source_text c = "N/A")) /\
  (lookup "estimated_cost" D = None -> displayed_cost (VDict D) = inr "N/A") /\
  (V = [] -> D = [] -> I = [] -> M = [] ->
     run (display_results (VDict d)) = (layout blank_cells, inr tt)).
Proof.
  intros NE HV HD HI HM HK V D I M.
  pose proof (display_results_run d NE HV HD HI HM HK) as R. cbv zeta in R. fold V D I M in R.
  split; [| split; [| split; [| split; [| split]]]].
  - intros cost C. now rewrite C in R.
  - intros e E. destruct (displayed_cost (VDict D)) as [e' | cost] eqn:C.
    + rewrite R in E. injection E as <-. split; [reflexivity|].
      unfold displayed_cost in C. cbn [dict_get and_then ok] in C.
      pose proof (cost_cell_raises _ _ C) as K. subst e'. split; [reflexivity|].
      unfold get_or in C. destruct (lookup "estimated_cost" D) as [[| b | z | | | |]|];
        try discriminate C.
      * destruct b; discriminate C.
      * now exists z.
    + rewrite R in E. discriminate E.
  - intros name [H | H]; unfold section_dict; now rewrite H.
  - intros cost c. unfold c, derive.
    cbn [vehicle_metric year_metric ocr_metric workflow_metric
      make_text model_text color_text year_text date_text location_text description
      severity_html cost_text count_text area_list source_text].
    repeat split; intros;
      repeat match goal with
             | H : lookup ?k ?s = None |- _ =>
                 rewrite !(get_or_absent s k _ H); clear H
             end; reflexivity.
  - intros H. unfold displayed_cost. cbn [dict_get and_then ok].
    now rewrite (get_or_absent _ _ _ H).
  - intros EV ED EI EM. rewrite EV, ED, EI, EM in R. exact R.
Qed.

(** ** The client, as one equation *)

Lemma check_health_answer b api_url :
  check_health b api_url =
  match failure_of (http_get b (api_url ++ "/health")) with
  | Some e => inr (VDict [("status", VStr "error"); ("error", VStr (exn_text e))])
  | None =>
      match http_get b (api_url ++ "/health") with
      | Responds r => json r
      | Fails e => inl e
      end
  end.
Proof.
  unfold check_health, client_get, raise_for_status, failure_of. cbv zeta.
  destruct (http_get b (api_url ++ "/health")) as [e | r]; cbn; [reflexivity|].
  destruct (is_success r); cbn; [| reflexivity].
  destruct (json r); reflexivity.
Qed.

Lemma process_claim_answer b api_url file_content filename mime :
  let x := http_post b (api_url ++ "/process-claim/upload")
             {| field := "file"; file_name := filename;
                file_content := file_content; content_type := mime |} in
  process_claim b api_url file_content filename mime =
  match failure_of x with
  | Some e => inr (VDict [("success", VBool false); ("error", VStr (exn_text e))])
  | None =>
      match x with
      | Responds r => json r
      | Fails e => inl e
      end
  end.
Proof.
  intros x. subst x.
  unfold process_claim, client_post, raise_for_status, failure_of. cbv zeta.
  destruct (http_post b _ _) as [e | r]; cbn; [reflexivity|].
  destruct (is_success r); cbn; [| reflexivity].
  destruct (json r); reflexivity.
Qed.

(** When the round trip does not fail, the answer is the parsed body. *)
Lemma answer_of_success x :
  failure_of x = None -> exists r body, x = Responds r /\ json r = inr body.
Proof.
  unfold failure_of. destruct x as [e | r]; [discriminate|].
  destruct (is_success r); [| discriminate].
  destruct (json r) as [e | body] eqn:J; [discriminate|]. intros _. now exists r, body.
Qed.

(** ** Painting only appends *)

Create HintDb appends.

Lemma appends_ret {A} (x : A) : appends (ret x).
Proof. intros t. cbn. now rewrite app_nil_r. Qed.

Lemma appends_lift {A} (r : result A) : appends (lift r).
Proof. intros t. cbn. now rewrite app_nil_r. Qed.

Lemma appends_paint e : appends (paint e).
Proof. intros t. reflexivity. Qed.

Lemma appends_then {A B} (m : ui A) (k : A -> ui B) :
  appends m -> (forall x, appends (k x)) -> appends (ui_then m k).
Proof.
  intros Hm Hk t. unfold ui_then. rewrite (Hm t).
  destruct (m []) as [a [e | x]]; cbn [fst snd]; [reflexivity|].
  rewrite (Hk x (List.app t a)), (Hk x a). cbn [fst snd].
  now rewrite app_assoc.
Qed.

Lemma appends_if {A} (c : bool) (m1 m2 : ui A) :
  appends m1 -> appends m2 -> appends (if c then m1 else m2).
Proof. now destruct c. Qed.

#[local] Hint Resolve appends_ret appends_lift appends_paint appends_then appends_if
  : appends.

Lemma appends_within {A} c (body : ui A) : appends body -> appends (within c body).
Proof. intros H. unfold within. auto 10 with appends. Qed.

#[local] Hint Resolve appends_within : appends.

Lemma appends_bullets areas : appends (bullets areas).
Proof.
  induction areas as [|a r IH]; cbn [bullets]; unfold st_markdown; auto with appends.
Qed.

#[local] Hint Resolve appends_bullets : appends.

Ltac appends_by known :=
  unfold st_markdown, st_metric, st_write, st_columns, st_divider, st_error, st_json;
  repeat first
    [ known
    | apply appends_then; [| intros ?]
    | apply appends_within
    | apply appends_paint
    | apply appends_lift
    | apply appends_ret
    | apply appends_bullets
    | apply appends_if ].

Ltac appends_step := appends_by fail.

Lemma appends_display_results data : appends (display_results data).
Proof.
  unfold display_results.
  destruct (negb (truthy data)); [apply appends_ret|].
  appends_step.
  match goal with
  | |- appends (match ?a with _ => _ end) =>
      destruct a as [| | | | | [|? ?] |]; appends_step
  end.
Qed.

Lemma appends_show_results result : appends (show_results result).
Proof.
  unfold show_results. appends_by ltac:(apply appends_display_results).
Qed.

(** ** The health button *)

Ltac page_steps :=
  cbn [page_then page_ret page_lift show inside markdown List.app dict_get
       and_then ok raise equals_str].

Lemma health_panel_run b api_url w :
  health_panel b api_url w =
  match check_health b api_url with
  | inl e => (List.app w [Element (Enter "spinner")], inl e)
  | inr (VDict d) =>
      if equals_str (get_or d "status" VNone) "healthy" then
        (List.app w
           [ Element (Enter "spinner"); Element (Leave "spinner");
             Element (Markdown (pill_html Low "Healthy") true);
             Caption (get_or d "service" (VStr ""));
             Caption (VStr ("Version: " ++ py_str (get_or d "version" (VStr "")))) ],
         inr tt)
      else
        (List.app w
           [ Element (Enter "spinner"); Element (Leave "spinner");
             Element (Markdown (pill_html High "Unreachable") true);
             Caption (get_or d "error" (VStr "Unknown error")) ],
         inr tt)
  | inr v =>
      (List.app w [Element (Enter "spinner"); Element (Leave "spinner")],
       inl (Exn AttributeError ("'" ++ type_name v ++ "' object has no attribute 'get'")))
  end.
Proof.
  unfold health_panel. page_steps.
  destruct (check_health b api_url) as [e | v]; page_steps; [reflexivity|].
  rewrite <- !app_assoc. cbn [List.app].
  destruct v as [| | | | | | d]; page_steps; try reflexivity.
  destruct (equals_str (get_or d "status" VNone) "healthy"); page_steps;
    unfold show; rewrite <- ?app_assoc; reflexivity.
Qed.

Lemma health_panel_failed b api_url w e :
  failure_of (http_get b (api_url ++ "/health")) = Some e ->
  health_panel b api_url w =
    (List.app w
       [ Element (Enter "spinner"); Element (Leave "spinner");
         Element (Markdown (pill_html High "Unreachable") true);
         Caption (VStr (exn_text e)) ],
     inr tt).
Proof.
  intros F. rewrite health_panel_run, check_health_answer, F. reflexivity.
Qed.

(** X2.  When the health request fails, be it in the transport, on a
    status outside 2xx or on a body that does not parse, the health button
    paints the Unreachable pill and the text of the exception as caption,
    and does not raise. *)
Theorem health_failure_is_unreachable (b : backend) (api_url : string) (e : exn) :
  failure_of (http_get b (api_url ++ "/health")) = Some e ->
  health_panel b api_url [] =
    ([ Element (Enter "spinner"); Element (Leave "spinner");
       Element (Markdown (pill_html High "Unreachable") true);
       Caption (VStr (exn_text e)) ],
     inr tt).
Proof.
  intros F. exact (health_panel_failed b api_url [] e F).
Qed.

(** X3.  When the health request is answered 2xx with a JSON object, the
    pill is Healthy exactly when the object's [status] is the string
    healthy, with the [service] and the [version] as captions (empty when
    absent); any other object, healthy in other words or not, is painted
    Unreachable with its [error], or Unknown error when it has none. *)
Theorem health_answer_view
    (b : backend) (api_url : string) (r : response) (d : list (string * pyval)) :
  http_get b (api_url ++ "/health") = Responds r ->
  is_success r = true ->
  json r = inr (VDict d) ->
  (lookup "status" d = Some (VStr "healthy") ->
     health_panel b api_url [] =
       ([ Element (Enter "spinner"); Element (Leave "spinner");
          Element (Markdown (pill_html Low "Healthy") true);
          Caption (get_or d "service" (VStr ""));
          Caption (VStr ("Version: " ++ py_str (get_or d "version" (VStr "")))) ],
        inr tt)) /\
  (lookup "status" d <> Some (VStr "healthy") ->
     health_panel b api_url [] =
       ([ Element (Enter "spinner"); Element (Leave "spinner");
          Element (Markdown (pill_html High "Unreachable") true);
          Caption (get_or d "error" (VStr "Unknown error")) ],
        inr tt)).
Proof.
  intros G S J.
  assert (A : check_health b api_url = inr (VDict d)).
  { rewrite check_health_answer. unfold failure_of. now rewrite G, S, J. }
  rewrite health_panel_run, A. split; intros H.
  - now rewrite (get_or_present _ _ _ _ H).
  - assert (N : equals_str (get_or d "status" VNone) "healthy" = false).
    { unfold get_or. destruct (lookup "status" d) as [[| | | | s | |]|]; try reflexivity.
      cbn. apply String.eqb_neq. intros ->. now apply H. }
    now rewrite N.
Qed.

(** X4.  A 2xx answer to the health request whose body parses to anything
    but an object is returned by [check_health] as it is, and the health
    button then raises [AttributeError] on [result.get], after the spinner
    and before any pill. *)
Theorem health_non_object_raises
    (b : backend) (api_url : string) (r : response) (v : pyval) :
  http_get b (api_url ++ "/health") = Responds r ->
  is_success r = true ->
  json r = inr v ->
  (forall d, v <> VDict d) ->
  check_health b api_url = inr v /\
  health_panel b api_url [] =
    ([Element (Enter "spinner"); Element (Leave "spinner")],
     inl (Exn AttributeError ("'" ++ type_name v ++ "' object has no attribute 'get'"))).
Proof.
  intros G S J N.
  assert (A : check_health b api_url = inr v).
  { rewrite check_health_answer. unfold failure_of. now rewrite G, S, J. }
  split; [exact A|]. rewrite health_panel_run, A.
  destruct v; try reflexivity. now destruct (N d).
Qed.

(** ** The session *)

Lemma rstrip_strip_clean s :
  rstrip_chars "/" (rstrip_chars "/" (strip s)) = rstrip_chars "/" (strip s).
Proof. apply rstrip_by_idem. Qed.

(** X5.  Once [main] has run, the URL is settled in the session: on later
    runs [get_api_url] returns the URL the sidebar stored, unchanged,
    leaves the session as it is, and no longer looks at the environment.
    The same holds after a first call of [get_api_url] alone. *)
Theorem session_url_is_settled
    (env env' : option string) (b : backend) (inp : inputs) (st : session_state) :
  let st1 := snd (main env b inp st) in
  let used := fst (sidebar_api_url env (typed_url inp) st) in
  api_url st1 = Some used /\
  get_api_url env' st1 = (used, st1) /\
  get_api_url env' (snd (get_api_url env st)) = get_api_url env st.
Proof.
  cbv zeta. unfold main, sidebar_api_url.
  destruct (get_api_url env st) as [value st0] eqn:E. cbn [fst snd].
  split; [reflexivity | split].
  - unfold get_api_url. cbn [api_url]. now rewrite rstrip_strip_clean.
  - unfold get_api_url in E |- *.
    destruct (api_url st) as [u|] eqn:U.
    + injection E as <- <-. now rewrite U.
    + injection E as <- <-. reflexivity.
Qed.

(** ** The requests of one run *)

Lemma check_health_same b b' api_url :
  http_get b (api_url ++ "/health") = http_get b' (api_url ++ "/health") ->
  check_health b api_url = check_health b' api_url.
Proof. intros H. now rewrite !check_health_answer, H. Qed.

Lemma process_claim_same b b' api_url uploaded :
  http_post b (api_url ++ "/process-claim/upload") (submitted uploaded) =
  http_post b' (api_url ++ "/process-claim/upload") (submitted uploaded) ->
  process_claim b api_url (getvalue uploaded) (name uploaded) (infer_mime (name uploaded)) =
  process_claim b' api_url (getvalue uploaded) (name uploaded) (infer_mime (name uploaded)).
Proof.
  intros H. rewrite !process_claim_answer. cbv zeta.
  unfold submitted in H. now rewrite H.
Qed.

(** X6.  One run of [main] consults the backend through at most two
    requests: the GET of [/health] under the settled URL, and only if the
    health button was clicked; and the POST of the picked file to
    [/process-claim/upload] under the same URL, as field [file] with the
    file's name, bytes and guessed mime type, and only if the process
    button was clicked and a file is picked.  Two backends that answer
    those alike give the same page and the same session. *)
Theorem main_requests
    (env : option string) (b b' : backend) (inp : inputs) (st : session_state) :
  let used := fst (sidebar_api_url env (typed_url inp) st) in
  (health_clicked inp = true ->
     http_get b (used ++ "/health") = http_get b' (used ++ "/health")) ->
  (process_clicked inp = true -> forall uploaded, picked inp = Some uploaded ->
     http_post b (used ++ "/process-claim/upload") (submitted uploaded) =
     http_post b' (used ++ "/process-claim/upload") (submitted uploaded)) ->
  main env b inp st = main env b' inp st.
Proof.
  cbv zeta. intros G P. unfold main.
  destruct (get_api_url env st) as [value st0].
  destruct (sidebar_api_url env (typed_url inp) st) as [used st1]. cbn [fst] in G, P.
  f_equal. unfold main_page.
  assert (H : (if health_clicked inp then health_panel b used else page_ret tt) =
              (if health_clicked inp then health_panel b' used else page_ret tt)).
  { destruct (health_clicked inp); [| reflexivity].
    unfold health_panel. now rewrite (check_health_same b b' used (G eq_refl)). }
  assert (Q : (if process_clicked inp then
                 match picked inp with
                 | Some uploaded => embed (process_and_show b used uploaded)
                 | None => page_ret tt
                 end
               else page_ret tt) =
              (if process_clicked inp then
                 match picked inp with
                 | Some uploaded => embed (process_and_show b' used uploaded)
                 | None => page_ret tt
                 end
               else page_ret tt)).
  { destruct (process_clicked inp); [| reflexivity].
    destruct (picked inp) as [uploaded|]; [| reflexivity].
    unfold process_and_show, submit.
    now rewrite (process_claim_same b b' used uploaded (P eq_refl uploaded eq_refl)). }
  now rewrite H, Q.
Qed.

(** ** The submission, end to end *)

Lemma process_and_show_run b api_url uploaded :
  run (process_and_show b api_url uploaded) =
  match submit b api_url uploaded [] with
  | (t, inl e) => (t, inl e)
  | (t, inr result) =>
      (List.app t (fst (run (show_results result))), snd (run (show_results result)))
  end.
Proof.
  unfold run, process_and_show. cbn [ui_then].
  destruct (submit b api_url uploaded []) as [t [e | result]]; [reflexivity|].
  apply appends_show_results.
Qed.

Lemma show_results_failed d :
  truthy (get_or d "success" VNone) = false ->
  run (show_results (VDict d)) =
    ([ Divider;
       Markdown (div "section-h" "Results") true;
       Markdown ("<p class=" ++ dq ++ "section-p" ++ dq ++
                 ">Structured claim information extracted from the image.</p>") true;
       Markdown (pill_html High "Error") true;
       ErrorBox (get_or d "error" (VStr "Unknown error")) ], inr tt).
Proof.
  intros T. unfold run, show_results. ui_steps. rewrite T. reflexivity.
Qed.

Lemma process_and_show_failed b api_url uploaded e :
  failure_of (http_post b (api_url ++ "/process-claim/upload") (submitted uploaded)) = Some e ->
  run (process_and_show b api_url uploaded) = (failed_page (VStr (exn_text e)), inr tt).
Proof.
  intros F.
  assert (A : process_claim b api_url (getvalue uploaded) (name uploaded)
                (infer_mime (name uploaded)) =
              inr (VDict [("success", VBool false); ("error", VStr (exn_text e))])).
  { rewrite process_claim_answer. cbv zeta. unfold submitted in F. now rewrite F. }
  rewrite process_and_show_run, submit_run, A.
  cbn [get_or lookup String.eqb Ascii.eqb Bool.eqb truthy].
  rewrite show_results_failed by reflexivity. reflexivity.
Qed.

(** X7.  When the submission fails, be it in the transport, on a status
    outside 2xx or on a body that does not parse, the page shows the
    status as failed, the Error pill and the text of the exception in the
    error box, paints no claim data and does not raise. *)
Theorem submission_failure_is_shown
    (b : backend) (api_url : string) (uploaded : uploaded_file) (e : exn) :
  failure_of (http_post b (api_url ++ "/process-claim/upload") (submitted uploaded)) = Some e ->
  run (process_and_show b api_url uploaded) = (failed_page (VStr (exn_text e)), inr tt).
Proof.
  intros F. exact (process_and_show_failed b api_url uploaded e F).
Qed.

(** X8.  When the submission is answered 2xx with an object whose
    [success] is truthy and whose [data] is a non-empty object with
    readable sections, with a year, a character count and a workflow that
    a metric takes and a cost cell that formats, the page shows the status
    as complete, the Success pill, the claim panels laid out from the cells
    derived from [data], and the whole answer as raw JSON. *)
Theorem submission_success_is_shown
    (b : backend) (api_url : string) (uploaded : uploaded_file) (r : response)
    (d data : list (string * pyval)) (cost : string) :
  http_post b (api_url ++ "/process-claim/upload") (submitted uploaded) = Responds r ->
  is_success r = true ->
  json r = inr (VDict d) ->
  truthy (get_or d "success" VNone) = true ->
  lookup "data" d = Some (VDict data) ->
  data <> [] ->
  section_ok data "vehicle_info" -> section_ok data "damage_assessment" ->
  section_ok data "incident_info" -> section_ok data "metadata" ->
  metrics_ok data ->
  displayed_cost (VDict (section_dict data "damage_assessment")) = inr cost ->
  run (process_and_show b api_url uploaded) =
    (succeeded_page
       (layout (derive (section_dict data "vehicle_info")
                       (section_dict data "damage_assessment")
                       (section_dict data "incident_info")
                       (section_dict data "metadata") cost))
       (VDict d),
     inr tt).
Proof.
  intros P S J T D NE HV HD HI HM HK C.
  assert (A : process_claim b api_url (getvalue uploaded) (name uploaded)
                (infer_mime (name uploaded)) = inr (VDict d)).
  { rewrite process_claim_answer. cbv zeta. unfold submitted in P.
    unfold failure_of. now rewrite P, S, J. }
  pose proof (display_results_run data NE HV HD HI HM HK) as R. cbv zeta in R.
  rewrite C in R.
  assert (W : run (show_results (VDict d)) =
              (List.app
                 [ Divider;
                   Markdown (div "section-h" "Results") true;
                   Markdown ("<p class=" ++ dq ++ "section-p" ++ dq ++
                     ">Structured claim information extracted from the image.</p>") true;
                   Markdown (pill_html Low "Success") true;
                   Markdown "" false ]
                 (List.app
                    (layout (derive (section_dict data "vehicle_info")
                                    (section_dict data "damage_assessment")
                                    (section_dict data "incident_info")
                                    (section_dict data "metadata") cost))
                    [ Markdown "" false; Enter "expander"; Json (VDict d);
                      Leave "expander" ]),
               inr tt)).
  { unfold run, show_results. ui_steps. rewrite T. ui_steps.
    rewrite (get_or_present _ _ _ _ D).
    rewrite (appends_display_results (VDict data)).
    unfold run in R. rewrite R. cbn [fst snd].
    ui_steps. rewrite <- !app_assoc. reflexivity. }
  rewrite process_and_show_run, submit_run, A, T, W. cbn [fst snd].
  unfold succeeded_page. reflexivity.
Qed.

(** X9.  A 2xx answer to the submission whose body parses to anything but
    an object makes the block raise [AttributeError] on [result.get]
    inside the status block.  Neither of the two updates the code makes
    after the answer is painted; the exit of the block sets the status,
    still running under the label Uploading image..., to state error; and
    the results are not started. *)
Theorem submission_non_object_raises
    (b : backend) (api_url : string) (uploaded : uploaded_file) (r : response) (v : pyval) :
  http_post b (api_url ++ "/process-claim/upload") (submitted uploaded) = Responds r ->
  is_success r = true ->
  json r = inr v ->
  (forall d, v <> VDict d) ->
  run (process_and_show b api_url uploaded) =
    ([ Markdown "" false;
       Enter "status";
       StatusUpdate "Uploading image..." "running";
       StatusWrite ("Calling OCR + Structuring workflow" ++ ellipsis);
       StatusState "error" ],
     inl (Exn AttributeError ("'" ++ type_name v ++ "' object has no attribute 'get'"))).
Proof.
  intros P S J N.
  assert (A : process_claim b api_url (getvalue uploaded) (name uploaded)
                (infer_mime (name uploaded)) = inr v).
  { rewrite process_claim_answer. cbv zeta. unfold submitted in P.
    unfold failure_of. now rewrite P, S, J. }
  rewrite process_and_show_run, submit_run, A.
  destruct v; try (now destruct (N d)); reflexivity.
Qed.

(** ** What the results view needs of the payload *)

(** X10.  [display_results] reads its argument and each section through
    [.get], so a truthy payload that is not an object makes it raise
    [AttributeError] before anything is painted, and a [vehicle_info] that
    is truthy and not an object makes it raise in the first column, before
    any metric is painted. *)
Theorem results_need_objects :
  (forall data, truthy data = true -> (forall d, data <> VDict d) ->
     run (display_results data) =
       ([], inl (Exn AttributeError
                   ("'" ++ type_name data ++ "' object has no attribute 'get'")))) /\
  (forall d v, lookup "vehicle_info" d = Some v -> truthy v = true ->
     (forall x, v <> VDict x) ->
     snd (run (display_results (VDict d))) =
       inl (Exn AttributeError
              ("'" ++ type_name v ++ "' object has no attribute 'get'")) /\
     forall label value, ~ In (Metric label value) (fst (run (display_results (VDict d))))).
Proof.
  split.
  - intros data T N. unfold run, display_results. rewrite T. cbn [negb].
    unfold section_of.
    destruct data; try discriminate T; try (now destruct (N d)); reflexivity.
  - intros d v L T N.
    assert (E : run (display_results (VDict d)) =
                ([ Markdown (div "section-h" "Claim Summary") true; Columns 4; Enter "c1" ],
                 inl (Exn AttributeError
                        ("'" ++ type_name v ++ "' object has no attribute 'get'")))).
    { unfold run, display_results.
      replace (truthy (VDict d)) with true by (destruct d; [discriminate L | reflexivity]).
      cbn [negb]. unfold section_of. cbn [dict_get and_then ok].
      rewrite (get_or_present _ _ _ _ L), (py_or_truthy _ _ T). view_steps.
      destruct v; try (now destruct (N d0)); reflexivity. }
    rewrite E. cbn [fst snd]. split; [reflexivity|].
    intros label value [H | [H | [H | []]]]; discriminate H.
Qed.

(** ** The bullets of the damage panel *)

Lemma is_bullet_html body : is_bullet (Markdown body true) = false.
Proof. destruct body as [|a [|c r]]; reflexivity. Qed.

Lemma filter_area_bullets areas :
  filter is_bullet (area_bullets areas) =
  map (fun a => Markdown ("- " ++ py_str a) false) areas.
Proof.
  assert (G : forall l, filter is_bullet (map (fun a => Markdown ("- " ++ py_str a) false) l) =
                        map (fun a => Markdown ("- " ++ py_str a) false) l).
  { induction l as [|a l IH]; [reflexivity|].
    cbn [map filter]. change (is_bullet (Markdown ("- " ++ py_str a) false)) with true.
    cbv iota. now rewrite IH. }
  destruct areas as [|a r]; [reflexivity|].
  unfold area_bullets. cbn [filter]. rewrite is_bullet_html. apply G.
Qed.

Lemma filter_skip x l : is_bullet x = false -> filter is_bullet (x :: l) = filter is_bullet l.
Proof. intros H. cbn [filter]. now rewrite H. Qed.

Lemma filter_layout c :
  filter is_bullet (layout c) = map (fun a => Markdown ("- " ++ py_str a) false) (area_list c).
Proof.
  unfold layout. rewrite !filter_app, filter_area_bullets.
  repeat rewrite filter_skip by (first [apply is_bullet_html | reflexivity]).
  cbn [filter List.app]. now rewrite app_nil_r.
Qed.

(** X11.  On a payload with readable sections, with a year, a character
    count and a workflow that a metric takes and a cost cell that formats,
    the bullets painted are the affected areas, one for each and in their
    order, when [affected_areas] is a list, and the count in the table is
    then the number of bullets; there is no bullet when [affected_areas]
    is absent or is not a list. *)
Theorem bullets_are_the_areas (d : list (string * pyval)) (cost : string) :
  d <> [] ->
  section_ok d "vehicle_info" -> section_ok d "damage_assessment" ->
  section_ok d "incident_info" -> section_ok d "metadata" ->
  metrics_ok d ->
  let D := section_dict d "damage_assessment" in
  displayed_cost (VDict D) = inr cost ->
  let page := fst (run (display_results (VDict d))) in
  (forall l, lookup "affected_areas" D = Some (VList l) ->
     filter is_bullet page = map (fun a => Markdown ("- " ++ py_str a) false) l /\
     In (Markdown
           (kv_table
              (kv_row "Severity"
                 (severity_pill (Some (py_str (get_or D "severity" (VStr "N/A"))))) ++
               kv_row "Estimated Cost" cost ++
               kv_row "Affected Areas"
                 (str_int (Z.of_nat (List.length (filter is_bullet page)))))) true) page) /\
  (lookup "affected_areas" D = None -> filter is_bullet page = []) /\
  (forall v, lookup "affected_areas" D = Some v -> (forall l, v <> VList l) ->
     filter is_bullet page = []).
Proof.
  intros NE HV HD HI HM HK D C page.
  pose proof (display_results_run d NE HV HD HI HM HK) as R. cbv zeta in R.
  fold D in R. rewrite C in R.
  assert (F : filter is_bullet page =
              map (fun a => Markdown ("- " ++ py_str a) false)
                match py_or (get_or D "affected_areas" (VList [])) (VList []) with
                | VList l => l
                | _ => []
                end).
  { subst page. rewrite R. cbn [fst]. now rewrite filter_layout. }
  split; [| split].
  - intros l L.
    assert (A : py_or (get_or D "affected_areas" (VList [])) (VList []) = VList l).
    { rewrite (get_or_present _ _ _ _ L). now destruct l. }
    rewrite A in F. split; [exact F|].
    rewrite F, length_map. subst page. rewrite R. cbn [fst].
    unfold layout, derive. cbn [severity_html cost_text count_text].
    rewrite A. cbn [count_cell]. apply in_or_app. left.
    do 32 right. left. reflexivity.
  - intros L. rewrite (get_or_absent _ _ _ L) in F. exact F.
  - intros v L N. rewrite (get_or_present _ _ _ _ L) in F. rewrite F.
    unfold py_or. destruct (truthy v); [| reflexivity].
    destruct v; try reflexivity. now destruct (N l).
Qed.

(** ** The whole page *)

Ltac page_run :=
  cbv beta iota delta [page_then page_ret page_lift show inside markdown List.app].

(** X12.  With the backend down, so that every request fails, [main]
    raises only in the preview, on a picked file that [st.image] cannot
    decode, and then with the exception of [st.image].  With no file
    picked, or a picked file that decodes, the run reaches the footer,
    which is painted last, whatever the user typed or clicked. *)
Theorem main_survives_backend_down
    (env : option string) (b : backend) (inp : inputs) (st : session_state) :
  (forall url, exists e, failure_of (http_get b url) = Some e) ->
  (forall url files, exists e, failure_of (http_post b url files) = Some e) ->
  ((forall uploaded, picked inp = Some uploaded -> image_error (getvalue uploaded) = None) ->
   exists w,
     fst (main env b inp st) =
       (List.app w
          [Element (Markdown
             ("<div class=" ++ dq ++ "footer" ++ dq ++ ">" ++ copyright ++
              " 2026 Claims Processing Platform " ++ bullet ++ " Powered by Azure AI</div>")
             true)],
        inr tt)) /\
  (forall uploaded e, picked inp = Some uploaded ->
     image_error (getvalue uploaded) = Some e ->
     snd (fst (main env b inp st)) = inl e).
Proof.
  intros G P. unfold main.
  destruct (get_api_url env st) as [value st0].
  destruct (sidebar_api_url env (typed_url inp) st) as [used st1]. cbn [fst].
  destruct (G (used ++ "/health")) as [e Ge].
  split.
  - intros K.
    destruct inp as [typed hc [uploaded|] pc];
      unfold main_page; cbn [health_clicked picked process_clicked] in *;
      try rewrite (K uploaded eq_refl);
      destruct hc, pc; page_run;
      rewrite ?(health_panel_failed b used _ e Ge); page_run;
      try (unfold embed;
           change (process_and_show b used uploaded [])
             with (run (process_and_show b used uploaded));
           destruct (P (used ++ "/process-claim/upload") (submitted uploaded)) as [e' Pe];
           rewrite (process_and_show_failed b used uploaded e' Pe);
           cbv beta iota delta [failed_page map]; page_run);
      match goal with |- exists w, (?L, _) = _ => exists (removelast L) end;
      reflexivity.
  - intros uploaded e0 K E.
    destruct inp as [typed hc pk pc];
      unfold main_page; cbn [health_clicked picked process_clicked] in *.
    subst pk. rewrite E.
    destruct hc; page_run;
      rewrite ?(health_panel_failed b used _ e Ge); page_run; reflexivity.
Qed.

(** X13.  When the health button is clicked and the health request is
    answered 2xx with a body that is not an object, the exception raised
    under the button ends the run: the uploader is not painted, and no
    claim is submitted, whatever else the user did. *)
Theorem health_crash_ends_the_run
    (env : option string) (b : backend) (inp : inputs) (st : session_state)
    (r : response) (v : pyval) :
  let used := fst (sidebar_api_url env (typed_url inp) st) in
  health_clicked inp = true ->
  http_get b (used ++ "/health") = Responds r ->
  is_success r = true ->
  json r = inr v ->
  (forall d, v <> VDict d) ->
  snd (fst (main env b inp st)) =
    inl (Exn AttributeError ("'" ++ type_name v ++ "' object has no attribute 'get'")) /\
  (forall label types, ~ In (FileUploader label types) (fst (fst (main env b inp st)))) /\
  (forall b', http_get b' (used ++ "/health") = http_get b (used ++ "/health") ->
     main env b' inp st = main env b inp st).
Proof.
  cbv zeta. intros HC G S J N.
  assert (K : forall c w, http_get c (fst (sidebar_api_url env (typed_url inp) st) ++ "/health")
                          = Responds r ->
              health_panel c (fst (sidebar_api_url env (typed_url inp) st)) w =
                (List.app w [Element (Enter "spinner"); Element (Leave "spinner")],
                 inl (Exn AttributeError
                        ("'" ++ type_name v ++ "' object has no attribute 'get'")))).
  { intros c w Gc. rewrite health_panel_run, check_health_answer. unfold failure_of.
    rewrite Gc, S, J. destruct v; try reflexivity. now destruct (N d). }
  unfold main in *.
  destruct (get_api_url env st) as [value st0].
  destruct (sidebar_api_url env (typed_url inp) st) as [used st1]. cbn [fst] in *.
  unfold main_page. rewrite HC. page_run.
  rewrite (K b _ G). cbn [fst snd].
  split; [reflexivity | split].
  - intros label types H. repeat (destruct H as [H | H]; [discriminate H|]). exact H.
  - intros b' G'. rewrite G in G'. now rewrite (K b' _ G').
Qed.

(** X14.  A rerun in which the URL field is left at its default keeps the
    settled URL and the session, provided the settled URL has no white
    space at its ends; it need not otherwise, since stripping the slashes
    can uncover a space that the next run strips. *)
Theorem rerun_keeps_url :
  (forall (env env' typed : option string) (st : session_state),
     let first := sidebar_api_url env typed st in
     strip (fst first) = fst first ->
     sidebar_api_url env' None (snd first) = first) /\
  (exists (typed : option string) (st : session_state),
     let first := sidebar_api_url None typed st in
     sidebar_api_url None None (snd first) <> first).
Proof.
  split.
  - intros env env' typed st. cbv zeta. unfold sidebar_api_url.
    destruct (get_api_url env st) as [value st0]. cbn [fst snd].
    intros H. unfold get_api_url. cbn [api_url].
    rewrite rstrip_strip_clean, H, rstrip_strip_clean. reflexivity.
  - exists (Some "http://localhost:8080 /"), {| api_url := None |}.
    vm_compute. discriminate.
Qed.

(** ** The Vehicle metric *)

Lemma rstrip_by_keeps p c r : p c = false -> rstrip_by p (String c r) <> EmptyString.
Proof.
  intros H. cbn [rstrip_by]. destruct (rstrip_by p r); [rewrite H |]; discriminate.
Qed.

Lemma strip_blank s : strip s = EmptyString <-> blank s = true.
Proof.
  unfold strip. induction s as [|c r IH]; cbn [lstrip_by blank].
  - split; reflexivity.
  - destruct (is_space c) eqn:C; cbn [andb]; [exact IH|].
    split; [| discriminate]. intros H. now destruct (rstrip_by_keeps is_space c r C).
Qed.

Lemma area_bullets_markdown areas x :
  In x (area_bullets areas) -> exists body html, x = Markdown body html.
Proof.
  destruct areas as [|a r]; [intros [] |]. unfold area_bullets.
  intros [<- | H]; [eauto|].
  apply in_map_iff in H. destruct H as (y & <- & _). eauto.
Qed.

(** Where [display_results] stops when a metric refuses its value: at
    the first of the year, the character count and the workflow that is
    a list or an object. *)
Lemma display_results_refused d :
  d <> [] ->
  section_ok d "vehicle_info" -> section_ok d "damage_assessment" ->
  section_ok d "incident_info" -> section_ok d "metadata" ->
  let V := section_dict d "vehicle_info" in
  let M := section_dict d "metadata" in
  let year := get_or V "year" (VStr "N/A") in
  let ocr := get_or M "ocr_characters" (VStr "N/A") in
  let wf := get_or M "workflow" (VStr "N/A") in
  let head :=
    [ Markdown (div "section-h" "Claim Summary") true;
      Columns 4;
      Enter "c1";
      Metric "Vehicle"
        (py_or (VStr (strip (py_str (get_or V "make" (VStr "")) ++ " " ++
                             py_str (get_or V "model" (VStr ""))))) (VStr "N/A"));
      Leave "c1";
      Enter "c2" ] in
  (accepted_by_metric year = false ->
     run (display_results (VDict d)) = (head, inl (Exn TypeError (metric_error year)))) /\
  (accepted_by_metric year = true -> accepted_by_metric ocr = false ->
     run (display_results (VDict d)) =
       (List.app head [Metric "Year" year; Leave "c2"; Enter "c3"],
        inl (Exn TypeError (metric_error ocr)))) /\
  (accepted_by_metric year = true -> accepted_by_metric ocr = true ->
   accepted_by_metric wf = false ->
     run (display_results (VDict d)) =
       (List.app head
          [Metric "Year" year; Leave "c2"; Enter "c3";
           Metric "OCR Characters" ocr; Leave "c3"; Enter "c4"],
        inl (Exn TypeError (metric_error wf)))).
Proof.
  intros NE HV HD HI HM V M year ocr wf head.
  unfold run, display_results.
  replace (truthy (VDict d)) with true by (destruct d; [congruence | reflexivity]).
  cbn [negb].
  rewrite (section_of_ok _ _ HV). fold V. view_steps.
  rewrite (section_of_ok _ _ HD). view_steps.
  rewrite (section_of_ok _ _ HI). view_steps.
  rewrite (section_of_ok _ _ HM). fold M. view_steps.
  rewrite (st_metric_accepted _ _ _ (vehicle_accepted _)). view_steps.
  fold year ocr wf.
  split; [| split].
  - intros Y. rewrite (st_metric_refused _ _ _ Y). reflexivity.
  - intros Y O. rewrite (st_metric_accepted _ _ _ Y). view_steps.
    rewrite (st_metric_refused _ _ _ O). reflexivity.
  - intros Y O W. rewrite (st_metric_accepted _ _ _ Y). view_steps.
    rewrite (st_metric_accepted _ _ _ O). view_steps.
    rewrite (st_metric_refused _ _ _ W). reflexivity.
Qed.

(** X15.  On a payload with readable sections whose cost cell formats, the
    page has one Vehicle metric: the make and the model joined by a space
    and trimmed, or N/A when that text is blank, as it is when both are
    missing or empty.  The metric is never the empty text. *)
Theorem vehicle_metric_shown (d : list (string * pyval)) (cost : string) :
  d <> [] ->
  section_ok d "vehicle_info" -> section_ok d "damage_assessment" ->
  section_ok d "incident_info" -> section_ok d "metadata" ->
  displayed_cost (VDict (section_dict d "damage_assessment")) = inr cost ->
  let V := section_dict d "vehicle_info" in
  let text := py_str (get_or V "make" (VStr "")) ++ " " ++
              py_str (get_or V "model" (VStr "")) in
  let shown := if blank text then "N/A" else strip text in
  (forall v, In (Metric "Vehicle" v) (fst (run (display_results (VDict d)))) <->
             v = VStr shown) /\
  shown <> EmptyString.
Proof.
  intros NE HV HD HI HM C V text shown.
  assert (M : py_or (VStr (strip text)) (VStr "N/A") = VStr shown).
  { subst shown. unfold py_or. cbn [truthy].
    destruct (blank text) eqn:B.
    - apply strip_blank in B. now rewrite B.
    - destruct (strip text) eqn:S; [| reflexivity].
      apply strip_blank in S. congruence. }
  split.
  - pose proof (display_results_refused d NE HV HD HI HM) as (R1 & R2 & R3).
    fold V in R1, R2, R3. fold text in R1, R2, R3. rewrite M in R1, R2, R3.
    destruct (accepted_by_metric (get_or V "year" (VStr "N/A"))) eqn:Y.
    + destruct (accepted_by_metric
                  (get_or (section_dict d "metadata") "ocr_characters" (VStr "N/A"))) eqn:O.
      * destruct (accepted_by_metric
                    (get_or (section_dict d "metadata") "workflow" (VStr "N/A"))) eqn:W.
        -- pose proof (display_results_run d NE HV HD HI HM (conj Y (conj O W))) as R.
           cbv zeta in R. rewrite C in R. rewrite R. cbn [fst]. fold V.
           intros v. unfold layout, derive. cbn [vehicle_metric area_list].
           fold V. fold text. rewrite M. split.
           ++ intros H. apply in_app_or in H. destruct H as [H | H].
              ** do 3 (destruct H as [H | H]; [discriminate H|]).
                 destruct H as [H | H]; [now injection H as <- |].
                 repeat (destruct H as [H | H]; [discriminate H|]). destruct H.
              ** apply in_app_or in H. destruct H as [H | H].
                 --- apply area_bullets_markdown in H. destruct H as (body & html & H).
                     discriminate H.
                 --- repeat (destruct H as [H | H]; [discriminate H|]). destruct H.
           ++ intros ->. apply in_or_app. left. do 3 right. left. reflexivity.
        -- rewrite (R3 eq_refl eq_refl eq_refl). cbn [fst List.app]. intros v. split.
           ++ intros H. do 3 (destruct H as [H | H]; [discriminate H|]).
              destruct H as [H | H]; [now injection H as <- |].
              repeat (destruct H as [H | H]; [discriminate H|]). destruct H.
           ++ intros ->. do 3 right. left. reflexivity.
      * rewrite (R2 eq_refl eq_refl). cbn [fst List.app]. intros v. split.
        -- intros H. do 3 (destruct H as [H | H]; [discriminate H|]).
           destruct H as [H | H]; [now injection H as <- |].
           repeat (destruct H as [H | H]; [discriminate H|]). destruct H.
        -- intros ->. do 3 right. left. reflexivity.
    + rewrite (R1 eq_refl). cbn [fst]. intros v. split.
      * intros H. do 3 (destruct H as [H | H]; [discriminate H|]).
        destruct H as [H | H]; [now injection H as <- |].
        repeat (destruct H as [H | H]; [discriminate H|]). destruct H.
      * intros ->. do 3 right. left. reflexivity.
  - subst shown. destruct (blank text) eqn:B; [discriminate|].
    intros S. apply strip_blank in S. congruence.
Qed.


End Facts.

(** The closed examples run with the sample instances of the two library
    interfaces. *)
#[local] Existing Instance sample_metric_error.
#[local] Existing Instance sample_image_error.

(** * Closed examples *)

(** ** Instances of the theorems *)

(** The inputs of the specification's examples, one per branch. *)
Lemma severity_pill_classification_witness :
  severity_pill (Some "  high  ") = pill_html High "High" /\
  severity_pill (Some "Medium") = pill_html Medium "Medium" /\
  severity_pill (Some "LOW") = pill_html Low "Low" /\
  severity_pill (Some "unknown") = pill_html Neutral "unknown" /\
  severity_pill None = pill_html Neutral "N/A".
Proof.
  split; [| split; [| split; [| split]]].
  - apply (severity_pill_classification (Some "  high  ")). simpl. tauto.
  - apply (severity_pill_classification (Some "Medium")). simpl. tauto.
  - apply (severity_pill_classification (Some "LOW")). simpl. tauto.
  - apply (proj1 (proj2 (proj2 (proj2
      (severity_pill_classification (Some "unknown")))))) with (raw := "unknown").
    + simpl. intuition discriminate.
    + reflexivity.
    + discriminate.
  - apply (severity_pill_classification None). left. reflexivity.
Defined.

Lemma affected_count_rendering_witness :
  displayed_count (VDict [("affected_areas", VList [VInt 1; VInt 2; VInt 3])]) = inr "3" /\
  displayed_count (VDict [("affected_areas", VList [])]) = inr "0" /\
  displayed_count (VDict [("severity", VStr "minor")]) = inr "0" /\
  displayed_count (VDict [("affected_areas", VNone)]) = inr "0" /\
  displayed_count (VDict [("affected_areas", VStr "hood")]) = inr "N/A".
Proof.
  split; [| split; [| split; [| split]]].
  - apply (proj1 (affected_count_rendering
                    [("affected_areas", VList [VInt 1; VInt 2; VInt 3])])
             [VInt 1; VInt 2; VInt 3]).
    reflexivity.
  - apply (proj1 (affected_count_rendering [("affected_areas", VList [])]) []).
    reflexivity.
  - apply (proj1 (proj2 (affected_count_rendering [("severity", VStr "minor")]))).
    reflexivity.
  - apply (proj1 (proj2 (proj2 (affected_count_rendering [("affected_areas", VNone)])))
             VNone); reflexivity.
  - apply (proj1 (proj2 (proj2 (proj2
             (affected_count_rendering [("affected_areas", VStr "hood")]))))
             (VStr "hood")); try reflexivity.
    discriminate.
Defined.

Lemma cost_rendering_witness :
  is_finite (S754_finite false 2469 (-1)) = true /\
  (exists text,
     cost_cell (float_text := sample_float_repr) (VFloat (S754_finite false 2469 (-1)))
       = inr text /\
     money_shape text = true /\ money_cents text = Some (false, 123450)) /\
  (exists text,
     cost_cell (float_text := sample_float_repr) (VInt (-4500)) = inr text /\
     money_shape text = true /\ money_cents text = Some (true, 450000)) /\
  (exists text,
     cost_cell (float_text := sample_float_repr) (VInt 4500) = inr text /\
     money_shape text = true /\ money_cents text = Some (false, 450000)) /\
  float_cents (S754_finite true 1125 2) = (true, 450000) /\
  cost_cell (float_text := sample_float_repr) (VList [VInt 1; VStr "a"]) = inr "[1, 'a']".
Proof.
  split; [reflexivity | split; [| split; [| split; [| split]]]].
  - apply (proj1 (cost_rendering (float_text := sample_float_repr))). reflexivity.
  - apply (proj1 (proj2 (cost_rendering (float_text := sample_float_repr))) (-4500)).
    reflexivity.
  - apply (proj1 (proj2 (proj2 (cost_rendering (float_text := sample_float_repr)))) 4500
             (S754_finite false 4947802324992000 (-40))).
    vm_compute. reflexivity.
  - apply (proj1 (proj2 (proj2 (proj2 (cost_rendering (float_text := sample_float_repr)))))
             true 1125%positive 2).
    discriminate.
  - apply (proj1 (proj2 (proj2 (proj2 (proj2 (proj2 (proj2 (proj2 (proj2 (proj2
             (cost_rendering (float_text := sample_float_repr)))))))))))).
    + reflexivity.
    + discriminate.
Defined.

Lemma check_health_never_raises_witness :
  check_health refusing "http://localhost:8080" =
    inr (VDict [("status", VStr "error");
                ("error", VStr "[Errno 111] Connection refused")]) /\
  check_health rejecting "http://localhost:8080" =
    inr (VDict [("status", VStr "error"); ("error", VStr (status_error unavailable))]) /\
  check_health
    (answering (VDict [("status", VStr "healthy"); ("service", VStr "x");
                       ("version", VStr "1.0")])) "http://localhost:8080" =
    inr (VDict [("status", VStr "healthy"); ("service", VStr "x"); ("version", VStr "1.0")]).
Proof.
  split; [| split].
  - apply (proj1 (proj2 (proj2 (check_health_never_raises refusing "http://localhost:8080")))
             (Exn TransportError "[Errno 111] Connection refused")).
    reflexivity.
  - apply (proj1 (proj2 (proj2 (proj2
             (check_health_never_raises rejecting "http://localhost:8080"))))
             unavailable);
      reflexivity.
  - apply (proj1 (proj2 (check_health_never_raises
             (answering (VDict [("status", VStr "healthy"); ("service", VStr "x");
                                ("version", VStr "1.0")])) "http://localhost:8080"))
             {| status_code := 200; status_error := "";
                json := inr (VDict [("status", VStr "healthy"); ("service", VStr "x");
                                    ("version", VStr "1.0")]) |});
      reflexivity.
Defined.

Lemma process_claim_never_raises_witness :
  process_claim refusing "http://localhost:8080" "JFIF" "photo.jpg" "image/jpeg" =
    inr (VDict [("success", VBool false);
                ("error", VStr "[Errno 111] Connection refused")]) /\
  process_claim (answering (VDict [("success", VBool false); ("error", VStr "OCR failed")]))
    "http://localhost:8080" "JFIF" "photo.jpg" "image/jpeg" =
    inr (VDict [("success", VBool false); ("error", VStr "OCR failed")]).
Proof.
  split.
  - apply (proj1 (proj2 (proj2
             (process_claim_never_raises refusing "http://localhost:8080" "JFIF"
                "photo.jpg" "image/jpeg")))
             (Exn TransportError "[Errno 111] Connection refused")).
    reflexivity.
  - apply (proj1 (proj2
             (process_claim_never_raises
                (answering (VDict [("success", VBool false); ("error", VStr "OCR failed")]))
                "http://localhost:8080" "JFIF" "photo.jpg" "image/jpeg"))
             {| status_code := 200; status_error := "";
                json := inr (VDict [("success", VBool false);
                                    ("error", VStr "OCR failed")]) |});
      reflexivity.
Defined.

Lemma infer_mime_by_suffix_witness :
  infer_mime "photo.PNG" = "image/png" /\ infer_mime "photo.jpg" = "image/jpeg".
Proof.
  split.
  - apply (proj1 (infer_mime_by_suffix "photo.PNG")).
    exists "photo", ".PNG". split; [reflexivity | simpl; tauto].
  - apply (proj2 (infer_mime_by_suffix "photo.jpg")).
    intros (stem & ext & E & I).
    assert (H : endswith "photo.jpg" ext = true).
    { apply endswith_spec. now exists stem. }
    simpl in I.
    repeat (destruct I as [<- | I]; [vm_compute in H; discriminate H |]).
    exact I.
Defined.

Lemma api_url_resolution_witness :
  fst (get_api_url (Some "http://localhost:8080/") {| api_url := None |}) =
    "http://localhost:8080" /\
  fst (get_api_url (Some "http://localhost:8080/") {| api_url := Some "https://api.test//" |}) =
    "https://api.test" /\
  fst (get_api_url None {| api_url := None |}) = BUILT_IN_API_URL /\
  fst (sidebar_api_url None (Some " http://10.0.0.1:8080/ ") {| api_url := None |}) =
    "http://10.0.0.1:8080".
Proof.
  split; [| split; [| split]].
  - exact (proj1 (api_url_resolution (Some "http://localhost:8080/") {| api_url := None |})).
  - exact (proj1 (api_url_resolution (Some "http://localhost:8080/")
                    {| api_url := Some "https://api.test//" |})).
  - exact (proj1 (api_url_resolution None {| api_url := None |})).
  - exact (proj2 (proj2 (proj2 (proj2 (api_url_resolution None {| api_url := None |}))
                    (Some " http://10.0.0.1:8080/ ")))).
Defined.

Lemma missing_fields_fall_back_witness :
  run (display_results (float_text := sample_float_repr)
         (VDict [("vehicle_info", VNone);
                 ("metadata", VDict [("workflow", VStr "ocr")])])) =
    (layout (float_text := sample_float_repr)
       (derive (float_text := sample_float_repr) [] [] [] [("workflow", VStr "ocr")] "N/A"),
     inr tt) /\
  workflow_metric
    (derive (float_text := sample_float_repr) [] [] [] [("workflow", VStr "ocr")] "N/A") =
    VStr "ocr" /\
  source_text
    (derive (float_text := sample_float_repr) [] [] [] [("workflow", VStr "ocr")] "N/A") =
    "N/A".
Proof.
  assert (H := missing_fields_fall_back (float_text := sample_float_repr)
                 [("vehicle_info", VNone); ("metadata", VDict [("workflow", VStr "ocr")])]
                 ltac:(discriminate)
                 (or_introl eq_refl) I I
                 (or_intror (ex_intro _ [("workflow", VStr "ocr")] eq_refl))
                 (conj eq_refl (conj eq_refl eq_refl))).
  split; [| split].
  - apply (proj1 H). reflexivity.
  - reflexivity.
  - destruct (proj1 (proj2 (proj2 (proj2 H))) "N/A")
      as (_ & _ & _ & _ & _ & _ & _ & _ & _ & _ & _ & _ & S).
    apply S. reflexivity.
Defined.

Lemma missing_success_takes_failure_path_witness :
  run (process_and_show (float_text := sample_float_repr)
         (answering (VDict [("data", VDict [("vehicle_info", VDict [("make", VStr "Toyota")])])]))
         "http://localhost:8080" photo) =
    ([Markdown "" false;
      Enter "status";
      StatusUpdate "Uploading image..." "running";
      StatusWrite ("Calling OCR + Structuring workflow" ++ ellipsis);
      StatusUpdate "Processing failed" "error";
      Leave "status";
      Divider;
      Markdown (div "section-h" "Results") true;
      Markdown ("<p class=" ++ dq ++ "section-p" ++ dq ++
                ">Structured claim information extracted from the image.</p>") true;
      Markdown (pill_html High "Error") true;
      ErrorBox (VStr "Unknown error")],
     inr tt).
Proof.
  apply (proj1 (missing_success_takes_failure_path (float_text := sample_float_repr)
                  (answering (VDict [("data",
                     VDict [("vehicle_info", VDict [("make", VStr "Toyota")])])]))
                  "http://localhost:8080" photo
                  {| status_code := 200; status_error := "";
                     json := inr (VDict [("data",
                       VDict [("vehicle_info", VDict [("make", VStr "Toyota")])])]) |}
                  [("data", VDict [("vehicle_info", VDict [("make", VStr "Toyota")])])]
                  eq_refl eq_refl eq_refl (or_introl eq_refl))).
Defined.

Lemma empty_data_paints_no_panels_witness :
  run (display_results (float_text := sample_float_repr) (VDict [])) = ([], inr tt) /\
  run (show_results (float_text := sample_float_repr)
         (VDict [("success", VBool true); ("data", VNone)])) =
    ([Divider;
      Markdown (div "section-h" "Results") true;
      Markdown ("<p class=" ++ dq ++ "section-p" ++ dq ++
                ">Structured claim information extracted from the image.</p>") true;
      Markdown (pill_html Low "Success") true;
      Markdown "" false;
      Markdown "" false;
      Enter "expander";
      Json (VDict [("success", VBool true); ("data", VNone)]);
      Leave "expander"],
     inr tt).
Proof.
  split.
  - apply (proj1 (empty_data_paints_no_panels (float_text := sample_float_repr)
                    [("success", VBool true)] eq_refl (or_introl eq_refl))).
  - apply (proj2 (empty_data_paints_no_panels (float_text := sample_float_repr)
                    [("success", VBool true); ("data", VNone)] eq_refl
                    (or_intror (ex_intro _ VNone (conj eq_refl eq_refl))))).
Defined.

(** ** The specification's scenarios *)

(** Scenario C: the view of a successful extraction. *)
Lemma scenario_C_view :
  let page := run (show_results (float_text := sample_float_repr) scenario_C) in
  snd page = inr tt /\
  In (Metric "Vehicle" (VStr "Toyota Camry")) (fst page) /\
  In (Metric "Year" (VInt 2020)) (fst page) /\
  In (Markdown (kv_table (kv_row "Severity" (pill_html High "High") ++
                          kv_row "Estimated Cost" "$4,500.00" ++
                          kv_row "Affected Areas" "2")) true) (fst page) /\
  In (Markdown "- front bumper" false) (fst page) /\
  In (Markdown "- hood" false) (fst page).
Proof.
  vm_compute.
  repeat split; repeat (first [left; reflexivity | right]).
Qed.

(** The largest [int] the cost cell formats, and the first it does not. *)
Lemma format_int_range :
  (exists text, format_int (2 ^ 1024 - 2 ^ 970 - 1) = inr text) /\
  format_int (2 ^ 1024 - 2 ^ 970) =
    inl (Exn OverflowError "int too large to convert to float") /\
  format_int (2 ^ 53 + 1) = inr "9,007,199,254,740,992.00".
Proof.
  split; [| split]; [eexists |..]; vm_compute; reflexivity.
Qed.

(** ** Where the specification and the code part *)

(** C2: with the field absent, or [None], the count shown is 0, not N/A. *)
Lemma affected_count_counterexample :
  ~ (forall d : list (string * pyval),
       (lookup "affected_areas" d = None \/ lookup "affected_areas" d = Some VNone) ->
       displayed_count (VDict d) = inr "N/A").
Proof.
  intros H. specialize (H [] (or_introl eq_refl)). discriminate H.
Qed.

(** C3: an infinite [float], which [json.loads] returns for [1e999] and
    for [Infinity], is a number and is rendered [$inf]; an [int] beyond the
    range of binary64 raises instead of being rendered. *)
Lemma cost_rendering_counterexample :
  ~ (forall est, is_number est = true ->
       exists text, cost_cell (float_text := sample_float_repr) est = inr text /\
                    money_shape text = true) /\
  cost_cell (float_text := sample_float_repr) (VFloat (S754_infinity false)) = inr "$inf" /\
  cost_cell (float_text := sample_float_repr) (VFloat S754_nan) = inr "$nan" /\
  cost_cell (float_text := sample_float_repr) (VInt (10 ^ 400)) =
    inl (Exn OverflowError "int too large to convert to float").
Proof.
  split; [| split; [| split]]; [| vm_compute; reflexivity ..].
  intros H. destruct (H (VFloat (S754_infinity false)) eq_refl) as (text & E & S).
  injection E as <-. discriminate S.
Qed.

(** C4: the message is the text of the exception, and an exception may
    carry none. *)
Lemma check_health_message_counterexample :
  ~ (forall (b : backend) (api_url : string) (e : exn),
       http_get b (api_url ++ "/health") = Fails e ->
       exists message, message <> EmptyString /\
         check_health b api_url =
           inr (VDict [("status", VStr "error"); ("error", VStr message)])).
Proof.
  intros H.
  destruct (H silent "http://localhost:8080" (Exn TransportError "") eq_refl)
    as (message & NE & E).
  injection E as <-. now apply NE.
Qed.

(** C8, at the input where the code departs from it.  A field that is
    present with the value [null] is not replaced by a fallback: for the
    payload [{"vehicle_info": {"make": null}}] rendering succeeds, and the
    make is shown as the text None in the table and in the summary, where
    an absent make is shown as N/A. *)
Theorem null_field_shown_as_None :
  let painted :=
    fst (run (display_results (float_text := sample_float_repr)
                (VDict [("vehicle_info", VDict [("make", VNone)])]))) in
  snd (run (display_results (float_text := sample_float_repr)
              (VDict [("vehicle_info", VDict [("make", VNone)])]))) = inr tt /\
  In (Markdown (kv_table (kv_row "Make" "None" ++ kv_row "Model" "N/A" ++
                          kv_row "Color" "N/A" ++ kv_row "Year" "N/A")) true) painted /\
  In (Metric "Vehicle" (VStr "None")) painted /\
  ~ In (Markdown (kv_table (kv_row "Make" "N/A" ++ kv_row "Model" "N/A" ++
                            kv_row "Color" "N/A" ++ kv_row "Year" "N/A")) true) painted.
Proof.
  vm_compute. split; [reflexivity | split; [| split]].
  - do 19 right. left. reflexivity.
  - do 3 right. left. reflexivity.
  - intros H. repeat (destruct H as [H | H]; [discriminate H |]). exact H.
Qed.

(** C9: with a falsy [success] and an [error] in the body, the message
    shown is the body's, not a generic one; and a body that parses to
    something other than an object has no [get], so the view raises in the
    status block instead of taking the failure path. *)
Lemma failure_path_counterexample :
  run (process_and_show (float_text := sample_float_repr)
         (answering (VDict [("success", VBool false); ("error", VStr "OCR failed")]))
         "http://localhost:8080" photo) =
    ([Markdown "" false;
      Enter "status";
      StatusUpdate "Uploading image..." "running";
      StatusWrite ("Calling OCR + Structuring workflow" ++ ellipsis);
      StatusUpdate "Processing failed" "error";
      Leave "status";
      Divider;
      Markdown (div "section-h" "Results") true;
      Markdown ("<p class=" ++ dq ++ "section-p" ++ dq ++
                ">Structured claim information extracted from the image.</p>") true;
      Markdown (pill_html High "Error") true;
      ErrorBox (VStr "OCR failed")],
     inr tt) /\
  run (process_and_show (float_text := sample_float_repr)
         (answering (VList [])) "http://localhost:8080" photo) =
    ([Markdown "" false;
      Enter "status";
      StatusUpdate "Uploading image..." "running";
      StatusWrite ("Calling OCR + Structuring workflow" ++ ellipsis);
      StatusState "error"],
     inl (Exn AttributeError "'list' object has no attribute 'get'")).
Proof.
  split; vm_compute; reflexivity.
Qed.

(** ** Instances of the theorems on the page *)

Lemma health_failure_is_unreachable_witness :
  health_panel (float_text := sample_float_repr) refusing "http://localhost:8080" [] =
    ([ Element (Enter "spinner"); Element (Leave "spinner");
       Element (Markdown (pill_html High "Unreachable") true);
       Caption (VStr "[Errno 111] Connection refused") ],
     inr tt).
Proof.
  apply (health_failure_is_unreachable (float_text := sample_float_repr)
           refusing "http://localhost:8080"
           (Exn TransportError "[Errno 111] Connection refused")).
  reflexivity.
Defined.

Lemma health_answer_view_witness :
  health_panel (float_text := sample_float_repr)
    (answering (VDict healthy_body)) "http://localhost:8080" [] =
    ([ Element (Enter "spinner"); Element (Leave "spinner");
       Element (Markdown (pill_html Low "Healthy") true);
       Caption (VStr "claims-api");
       Caption (VStr "Version: 1.0.0") ],
     inr tt) /\
  health_panel (float_text := sample_float_repr)
    (answering (VDict [("status", VStr "Healthy")])) "http://localhost:8080" [] =
    ([ Element (Enter "spinner"); Element (Leave "spinner");
       Element (Markdown (pill_html High "Unreachable") true);
       Caption (VStr "Unknown error") ],
     inr tt).
Proof.
  split.
  - apply (proj1 (health_answer_view (float_text := sample_float_repr)
                    (answering (VDict healthy_body)) "http://localhost:8080"
                    {| status_code := 200; status_error := "";
                       json := inr (VDict healthy_body) |}
                    healthy_body eq_refl eq_refl eq_refl)).
    reflexivity.
  - apply (proj2 (health_answer_view (float_text := sample_float_repr)
                    (answering (VDict [("status", VStr "Healthy")])) "http://localhost:8080"
                    {| status_code := 200; status_error := "";
                       json := inr (VDict [("status", VStr "Healthy")]) |}
                    [("status", VStr "Healthy")] eq_refl eq_refl eq_refl)).
    vm_compute. discriminate.
Defined.

Lemma health_non_object_raises_witness :
  check_health (answering (VList [])) "http://localhost:8080" = inr (VList []) /\
  health_panel (float_text := sample_float_repr)
    (answering (VList [])) "http://localhost:8080" [] =
    ([Element (Enter "spinner"); Element (Leave "spinner")],
     inl (Exn AttributeError "'list' object has no attribute 'get'")).
Proof.
  apply (health_non_object_raises (float_text := sample_float_repr)
           (answering (VList [])) "http://localhost:8080"
           {| status_code := 200; status_error := ""; json := inr (VList []) |}
           (VList []) eq_refl eq_refl eq_refl).
  intros d. discriminate.
Defined.

Lemma main_requests_witness :
  main (float_text := sample_float_repr) None refusing busy new_session =
  main (float_text := sample_float_repr) None refusing_locally busy new_session.
Proof.
  apply (main_requests (float_text := sample_float_repr)
           None refusing refusing_locally busy new_session).
  - intros _. reflexivity.
  - intros _ uploaded H. simpl in H. injection H as <-. reflexivity.
Defined.

Lemma submission_failure_is_shown_witness :
  run (process_and_show (float_text := sample_float_repr)
         rejecting "http://localhost:8080" photo) =
    (failed_page
       (VStr "Server error '503 Service Unavailable' for url 'http://localhost:8080/health'"),
     inr tt).
Proof.
  apply (submission_failure_is_shown (float_text := sample_float_repr)
           rejecting "http://localhost:8080" photo
           (Exn HTTPStatusError (status_error unavailable))).
  reflexivity.
Defined.

Lemma submission_success_is_shown_witness :
  run (process_and_show (float_text := sample_float_repr)
         (answering (VDict answer_C)) "http://localhost:8080" photo) =
    (succeeded_page
       (layout (float_text := sample_float_repr)
          (derive (float_text := sample_float_repr)
             (section_dict claim_C "vehicle_info")
             (section_dict claim_C "damage_assessment")
             (section_dict claim_C "incident_info")
             (section_dict claim_C "metadata") "$4,500.00"))
       (VDict answer_C),
     inr tt).
Proof.
  apply (submission_success_is_shown (float_text := sample_float_repr)
           (answering (VDict answer_C)) "http://localhost:8080" photo
           {| status_code := 200; status_error := ""; json := inr (VDict answer_C) |}
           answer_C claim_C "$4,500.00" eq_refl eq_refl eq_refl eq_refl eq_refl).
  - discriminate.
  - right. eexists. reflexivity.
  - right. eexists. reflexivity.
  - exact I.
  - exact I.
  - unfold metrics_ok. repeat split; reflexivity.
  - vm_compute. reflexivity.
Defined.

Lemma submission_non_object_raises_witness :
  run (process_and_show (float_text := sample_float_repr)
         (answering (VList [])) "http://localhost:8080" photo) =
    ([ Markdown "" false;
       Enter "status";
       StatusUpdate "Uploading image..." "running";
       StatusWrite ("Calling OCR + Structuring workflow" ++ ellipsis);
       StatusState "error" ],
     inl (Exn AttributeError "'list' object has no attribute 'get'")).
Proof.
  apply (submission_non_object_raises (float_text := sample_float_repr)
           (answering (VList [])) "http://localhost:8080" photo
           {| status_code := 200; status_error := ""; json := inr (VList []) |}
           (VList []) eq_refl eq_refl eq_refl).
  intros d. discriminate.
Defined.

Lemma results_need_objects_witness :
  run (display_results (float_text := sample_float_repr) (VStr "n/a")) =
    ([], inl (Exn AttributeError "'str' object has no attribute 'get'")) /\
  snd (run (display_results (float_text := sample_float_repr)
              (VDict [("vehicle_info", VStr "Toyota Camry")]))) =
    inl (Exn AttributeError "'str' object has no attribute 'get'").
Proof.
  split.
  - apply (proj1 (results_need_objects (float_text := sample_float_repr)) (VStr "n/a")).
    + reflexivity.
    + intros d. discriminate.
  - apply (proj2 (results_need_objects (float_text := sample_float_repr))
             [("vehicle_info", VStr "Toyota Camry")] (VStr "Toyota Camry")).
    + reflexivity.
    + reflexivity.
    + intros x. discriminate.
Defined.

Lemma bullets_are_the_areas_witness :
  filter is_bullet
    (fst (run (display_results (float_text := sample_float_repr) (VDict claim_C)))) =
  [Markdown "- front bumper" false; Markdown "- hood" false].
Proof.
  apply (proj1 (bullets_are_the_areas (float_text := sample_float_repr)
                  claim_C "$4,500.00"
                  ltac:(discriminate)
                  (or_intror (ex_intro _ _ eq_refl))
                  (or_intror (ex_intro _ _ eq_refl)) I I
                  (conj eq_refl (conj eq_refl eq_refl))
                  ltac:(vm_compute; reflexivity))
           [VStr "front bumper"; VStr "hood"]).
  reflexivity.
Defined.

Lemma main_survives_backend_down_witness :
  (exists w,
     fst (main (float_text := sample_float_repr) None refusing busy new_session) =
       (List.app w
          [Element (Markdown
             ("<div class=" ++ dq ++ "footer" ++ dq ++ ">" ++ copyright ++
              " 2026 Claims Processing Platform " ++ bullet ++ " Powered by Azure AI</div>")
             true)],
        inr tt)) /\
  snd (fst (main (float_text := sample_float_repr) None refusing careless new_session)) =
    inl (Exn UnidentifiedImageError "cannot identify image file").
Proof.
  split.
  - apply (main_survives_backend_down (float_text := sample_float_repr)
             None refusing busy new_session).
    + intros url. eexists. reflexivity.
    + intros url files. eexists. reflexivity.
    + intros uploaded H. simpl in H. injection H as <-. reflexivity.
  - apply (proj2 (main_survives_backend_down (float_text := sample_float_repr)
                    None refusing careless new_session
                    (fun url => ex_intro _ _ eq_refl)
                    (fun url files => ex_intro _ _ eq_refl))
             photo).
    + reflexivity.
    + reflexivity.
Defined.

Lemma health_crash_ends_the_run_witness :
  snd (fst (main (float_text := sample_float_repr)
              None (answering (VList [])) busy new_session)) =
    inl (Exn AttributeError "'list' object has no attribute 'get'").
Proof.
  apply (health_crash_ends_the_run (float_text := sample_float_repr)
           None (answering (VList [])) busy new_session
           {| status_code := 200; status_error := ""; json := inr (VList []) |}
           (VList []) eq_refl eq_refl eq_refl eq_refl).
  intros d. discriminate.
Defined.

Lemma rerun_keeps_url_witness :
  sidebar_api_url (Some "http://10.0.0.1:8080")
    None (snd (sidebar_api_url None (Some " http://localhost:8080/ ") new_session)) =
  sidebar_api_url None (Some " http://localhost:8080/ ") new_session.
Proof.
  apply (proj1 rerun_keeps_url None (Some "http://10.0.0.1:8080")
           (Some " http://localhost:8080/ ") new_session).
  vm_compute. reflexivity.
Defined.

Lemma vehicle_metric_shown_witness :
  In (Metric "Vehicle" (VStr "Toyota Camry"))
     (fst (run (display_results (float_text := sample_float_repr) (VDict claim_C)))) /\
  In (Metric "Vehicle" (VStr "N/A"))
     (fst (run (display_results (float_text := sample_float_repr)
                  (VDict [("vehicle_info", VDict [("make", VStr " ")])])))).
Proof.
  split.
  - apply (proj1 (vehicle_metric_shown (float_text := sample_float_repr)
                    claim_C "$4,500.00"
                    ltac:(discriminate)
                    (or_intror (ex_intro _ _ eq_refl))
                    (or_intror (ex_intro _ _ eq_refl)) I I
                    ltac:(vm_compute; reflexivity))
             (VStr "Toyota Camry")).
    reflexivity.
  - apply (proj1 (vehicle_metric_shown (float_text := sample_float_repr)
                    [("vehicle_info", VDict [("make", VStr " ")])] "N/A"
                    ltac:(discriminate)
                    (or_intror (ex_intro _ _ eq_refl)) I I I
                    ltac:(vm_compute; reflexivity))
             (VStr "N/A")).
    reflexivity.
Defined.

